(** * forgekit: developer-support utilities

    A shallow embedding of the forgekit sources
    ([docweaver.py], [garnish.py], [banner.py], [logman.py]) together with
    the properties stated about them.

    Conventions of the embedding.
    - A Python [str] is a Rocq [string] holding its UTF-8 bytes.  Case
      operations are computed on text of ASCII characters; on other text
      they are services of the interpreter.
    - Interpreter and library services the code calls but does not define
      ([ast.unparse], the clock, the font engine, [subprocess], ...) are
Section variables or fields of an environment record: the theorems
hold for every behaviour of those services.
- Code with effects is written in state-passing style over an explicit
world; a call that may raise returns an [outcome]. *)

From stdpp Require Import gmap strings list fin_maps.
From Stdlib Require Import Ascii String ZArith Bool Lia.

Set Warnings "-register-all".

Local Open Scope string_scope.
Local Open Scope list_scope.
Local Open Scope stdpp_scope.

(** ** Python strings *)

Module PyStr.

(** The one-character string ["\n"]. *)
Definition nl : string := String (ascii_of_nat 10) EmptyString.

(** [sep.join(parts)]. *)
Definition join (sep : string) (parts : list string) : string :=
  String.concat sep parts.

Definition is_upper (c : ascii) : bool :=
  let n := nat_of_ascii c in ((65 <=? n) && (n <=? 90))%nat.

Definition is_lower (c : ascii) : bool :=
  let n := nat_of_ascii c in ((97 <=? n) && (n <=? 122))%nat.

Definition lower_char (c : ascii) : ascii :=
  if is_upper c then ascii_of_nat (nat_of_ascii c + 32) else c.

Definition upper_char (c : ascii) : ascii :=
  if is_lower c then ascii_of_nat (nat_of_ascii c - 32) else c.

Fixpoint map_chars (f : ascii -> ascii) (s : string) : string :=
  match s with
  | EmptyString => EmptyString
  | String c rest => String (f c) (map_chars f rest)
  end.

(** Every byte is an ASCII character. *)
Fixpoint all_ascii (s : string) : bool :=
  match s with
  | EmptyString => true
  | String c rest => (nat_of_ascii c <? 128)%nat && all_ascii rest
  end.

(** Lower-casing of the ASCII letters of a text, byte by byte. *)
Definition ascii_lower (s : string) : string := map_chars lower_char s.

(** [s.capitalize()] for a text of ASCII characters: first character
    upper-cased, the rest lower-cased. *)
Definition ascii_capitalize (s : string) : string :=
  match s with
  | EmptyString => EmptyString
  | String c rest => String (upper_char c) (ascii_lower rest)
  end.

(** [s.lower() == "none"].  Lower-casing maps no character outside ASCII
    to the letters n, o or e, so the test succeeds exactly on the ASCII
    spellings of the word, which folding the ASCII letters decides. *)
Definition lower_is_none (s : string) : bool :=
  String.eqb (ascii_lower s) "none".

(** [s.replace(old, new)] for one-character [old] and [new]. *)
Definition replace_char (old new : ascii) (s : string) : string :=
  map_chars (fun c => if Ascii.eqb c old then new else c) s.

(** Truth value of a string: the empty string is false. *)
Definition truthy (s : string) : bool :=
  match s with EmptyString => false | String _ _ => true end.

(** Spelling of the word "none" with any mix of upper and lower case. *)
Definition spells_none (s : string) : Prop :=
  exists c1 c2 c3 c4 : ascii,
    s = String c1 (String c2 (String c3 (String c4 EmptyString)))
    /\ (c1 = "n"%char \/ c1 = "N"%char)
    /\ (c2 = "o"%char \/ c2 = "O"%char)
    /\ (c3 = "n"%char \/ c3 = "N"%char)
    /\ (c4 = "e"%char \/ c4 = "E"%char).

End PyStr.

(** ** docweaver.py: the docstring skeleton generator *)

Module Docweaver.
Import PyStr.

(** *** Syntax trees (the part of [ast] the generator inspects) *)

Inductive constant : Type :=
| CStr (s : string)
| CInt (z : Z)
| CBool (b : bool)
| CNone
| CEllipsis.

Inductive expr : Type :=
| Constant (value : constant)
| Name (id : string)
| Attribute (value : expr) (attr : string)
| Subscript (value : expr) (slice : expr)
| Tuple (elts : list expr)
| BinOp (left : expr) (op : string) (right : expr)
| Call (func : expr) (args : list expr).

(** [ast.arg]. *)
Record arg : Type := mk_arg {
  arg_name : string;
  annotation : option expr
}.

(** [ast.arguments]. *)
Record arguments : Type := mk_arguments {
  posonlyargs : list arg;
  args : list arg;
  vararg : option arg;
  kwonlyargs : list arg;
  kw_defaults : list (option expr);
  kwarg : option arg;
  defaults : list expr
}.

(** The fields of a [FunctionDef] / [AsyncFunctionDef] other than its body. *)
Record funcdef : Type := mk_funcdef {
  name : string;
  fargs : arguments;
  decorator_list : list expr;
  returns : option expr
}.

(** Statements.  [Simple] stands for every statement without a nested
    block other than [Expr] and [Pass] (return, assignment, import, ...);
    [Compound] for every statement with nested blocks other than the
    three definitions (if, for, while, with, try, match, ...), its blocks
    listed in field order. *)
Inductive stmt : Type :=
| FunctionDef (func : funcdef) (body : list stmt)
| AsyncFunctionDef (func : funcdef) (body : list stmt)
| ClassDef (cname : string) (bases : list expr) (body : list stmt)
           (cdecorators : list expr)
| Expr (value : expr)
| Pass
| Simple (kind : string) (operands : list expr)
| Compound (kind : string) (operands : list expr) (blocks : list (list stmt)).

(** Induction principle that reaches the statements of nested blocks. *)
Section stmt_induction.
Variable P : stmt -> Prop.
Hypothesis HFun : forall func body, Forall P body -> P (FunctionDef func body).
Hypothesis HAsync : forall func body, Forall P body -> P (AsyncFunctionDef func body).
Hypothesis HClass : forall cname bases body decos,
    Forall P body -> P (ClassDef cname bases body decos).
Hypothesis HExpr : forall value, P (Expr value).
Hypothesis HPass : P Pass.
Hypothesis HSimple : forall kind operands, P (Simple kind operands).
Hypothesis HCompound : forall kind operands blocks,
    Forall (Forall P) blocks -> P (Compound kind operands blocks).

Fixpoint stmt_nested_ind (s : stmt) : P s :=
  let fix block (l : list stmt) : Forall P l :=
    match l with
    | [] => List.Forall_nil P
    | x :: l' => List.Forall_cons P x l' (stmt_nested_ind x) (block l')
    end in
  let fix blocks (ls : list (list stmt)) : Forall (Forall P) ls :=
    match ls with
    | [] => List.Forall_nil (Forall P)
    | l :: ls' => List.Forall_cons (Forall P) l ls' (block l) (blocks ls')
    end in
  match s with
  | FunctionDef func body => HFun func body (block body)
  | AsyncFunctionDef func body => HAsync func body (block body)
  | ClassDef cname bases body decos => HClass cname bases body decos (block body)
  | Expr value => HExpr value
  | Pass => HPass
  | Simple kind operands => HSimple kind operands
  | Compound kind operands bs => HCompound kind operands bs (blocks bs)
  end.
End stmt_induction.

(** [ast.get_docstring(node) is None], on the body of [node]: the body is
    empty or its first statement is not an expression statement holding a
    string constant. *)
Definition docstring_is_none (body : list stmt) : bool :=
  match body with
  | Expr (Constant (CStr _)) :: _ => false
  | _ => true
  end.

(** Truth value of [node.body]: a list is true when it is not empty. *)
Definition nonempty (body : list stmt) : bool :=
  match body with [] => false | _ :: _ => true end.

(** *** The generator, parameterised by the renderer of expressions *)

Section Generator.

(** [ast.unparse(node)]: the rendered text, or [None] when it raises. *)
Variable unparse : expr -> option string.
(** [repr(node)]. *)
Variable repr : expr -> string.
(** [s.capitalize()] for a text with a character outside ASCII. *)
Variable unicode_capitalize : string -> string.

(** [s.capitalize()]. *)
Definition capitalize (s : string) : string :=
  if all_ascii s then ascii_capitalize s else unicode_capitalize s.

Definition ast_to_source (node : expr) : string :=
  match unparse node with
  | Some text => text
  | None => repr node
  end.

(** [ast_to_source(a.annotation) if a.annotation else None]; a syntax
    node is always true. *)
Definition annotation_text (a : arg) : option string :=
  match annotation a with
  | Some e => Some (ast_to_source e)
  | None => None
  end.

Definition plain_param (a : arg) : string * option string :=
  (arg_name a, annotation_text a).

Definition starred_param (marker : string) (a : option arg)
  : list (string * option string) :=
  match a with
  | Some v => [(marker +:+ arg_name v, annotation_text v)]
  | None => []
  end.

Definition extract_parameters (func : funcdef) : list (string * option string) :=
  let a := fargs func in
  map plain_param (posonlyargs a)
  ++ map plain_param (args a)
  ++ starred_param "*" (vararg a)
  ++ map plain_param (kwonlyargs a)
  ++ starred_param "**" (kwarg a).

Definition boilerplate : string :=
  "This is an auto-generated docstring skeleton. "
  +:+ "Please update the description and parameter details as appropriate.".

Definition summary_line (fname : string) (parent_class : option string) : string :=
  match parent_class with
  | Some c =>
      if String.eqb fname "__init__"
      then "Initialise an instance of `" +:+ c +:+ "`."
      else "Method `" +:+ fname +:+ "` of `" +:+ c +:+ "`."
  | None => capitalize (replace_char "_" " " fname) +:+ "."
  end.

(** [n in ("self", "cls")]. *)
Definition is_receiver_name (n : string) : bool :=
  String.eqb n "self" || String.eqb n "cls".

Definition doc_params (params : list (string * option string))
    (parent_class : option string) : list (string * option string) :=
  let is_method := match parent_class with Some _ => true | None => false end in
  List.filter (fun p => negb (is_method && is_receiver_name (fst p))) params.

Definition param_line (p : string * option string) : string :=
  match snd p with
  | Some ann =>
      if truthy ann
      then "    " +:+ fst p +:+ " (" +:+ ann +:+ "): TODO: describe parameter."
      else "    " +:+ fst p +:+ ": TODO: describe parameter."
  | None => "    " +:+ fst p +:+ ": TODO: describe parameter."
  end.

Definition args_section (dp : list (string * option string)) : list string :=
  match dp with
  | [] => []
  | _ :: _ => [EmptyString; "Args:"] ++ map param_line dp
  end.

Definition returns_section (return_ann : option string) : list string :=
  match return_ann with
  | Some r =>
      if truthy r && negb (lower_is_none r)
      then [EmptyString; "Returns:"; "    " +:+ r +:+ ": TODO: describe return value."]
      else []
  | None => []
  end.

Definition docstring_lines (func : funcdef) (parent_class : option string)
  : list string :=
  let params := extract_parameters func in
  let summary := summary_line (name func) parent_class in
  let return_ann := option_map ast_to_source (returns func) in
  [summary; EmptyString; boilerplate]
  ++ args_section (doc_params params parent_class)
  ++ returns_section return_ann.

Definition generate_function_docstring (func : funcdef)
    (parent_class : option string) : string :=
  join nl (docstring_lines func parent_class).

Definition class_boilerplate : string :=
  "This is an auto-generated docstring skeleton. "
  +:+ "Please update the description, attributes, and examples as needed.".

Definition generate_class_docstring (cname : string) : string :=
  join nl [cname +:+ " class."; class_boilerplate].

(** [ast.Expr(value=ast.Constant(value=docstring))]. *)
Definition doc_stmt (docstring : string) : stmt := Expr (Constant (CStr docstring)).

(** The guarded [node.body.insert(0, expr)] of the three visitors,
    applied to the body after its statements were visited: the inserted
    node is an expression statement, which the walk returns as it is. *)
Definition inject (docstring : string) (body visited : list stmt) : list stmt :=
  if docstring_is_none body && nonempty body
  then doc_stmt docstring :: visited
  else visited.

(** [DocstringInjector.visit].  [class_stack] is the transformer's stack of
    enclosing class names, innermost last; every push in [visit_ClassDef]
    is undone by its pop, so the stack is passed down as an argument.
    Expressions hold no statement, so visiting them changes nothing. *)
Fixpoint visit (class_stack : list string) (node : stmt) : stmt :=
  match node with
  | ClassDef cname bases body decos =>
      let class_stack' := class_stack ++ [cname] in
      ClassDef cname bases
        (inject (generate_class_docstring cname) body
                (map (visit class_stack') body))
        decos
  | FunctionDef func body =>
      let parent_class := last class_stack in
      FunctionDef func
        (inject (generate_function_docstring func parent_class) body
                (map (visit class_stack) body))
  | AsyncFunctionDef func body =>
      let parent_class := last class_stack in
      AsyncFunctionDef func
        (inject (generate_function_docstring func parent_class) body
                (map (visit class_stack) body))
  | Compound kind operands blocks =>
      Compound kind operands (map (map (visit class_stack)) blocks)
  | Expr value => Expr value
  | Pass => Pass
  | Simple kind operands => Simple kind operands
  end.

(** [transformer.visit(tree)] on the statements of the parsed module,
    starting with an empty class stack. *)
Definition visit_module (body : list stmt) : list stmt :=
  map (visit []) body.

End Generator.

End Docweaver.


(** ** Outcomes of calls that may raise *)

(** A raised exception: the name of its class and its text.  Only classes
    derived from [Exception] are modelled (what [except Exception] catches);
    interpreter exit and keyboard interrupts are outside the model. *)
Record exn : Type := mk_exn {
  exc_type : string;
  exc_text : string
}.

Inductive outcome (A : Type) : Type :=
| Returned (v : A)
| Raised (e : exn).

Arguments Returned {A} v.
Arguments Raised {A} e.

(** ** garnish.py: instrumentation decorators and scoped helpers *)

Module Garnish.
Import PyStr.

(** *** Objects, classes and function identity *)

(** A callable object.  [fn_id] is its identity (what [is] compares);
    [fn_name] is its [__name__], which objects such as [functools.partial]
    do not have; [fn_module] is the name of the module [inspect.getmodule]
    finds for it, if any; [fn_argnames] is
    [inspect.getfullargspec(func).args], or the [TypeError] it raises for a
    callable it cannot inspect (some built-ins). *)
Record function : Type := mk_function {
  fn_id : nat;
  fn_name : option string;
  fn_module : option string;
  fn_argnames : outcome (list string)
}.

(** What [getattr(class_obj, name)] evaluates to. *)
Inductive attr_value : Type :=
| AttrFunction (f : function)   (* a function stored in the class: no __func__ *)
| AttrBound (f : function)      (* a bound method object whose __func__ is f *)
| AttrOther (tag : string).     (* any other object: no __func__ *)

(** A class: its name, the attributes [hasattr] and [getattr] find on it
    (those of the class, its bases and its metaclass) and the names
    [dir(cls)] lists (those of the class and its bases). *)
Record class_obj : Type := mk_class {
  cls_name : string;
  cls_attrs : gmap string attr_value;
  cls_dir : list string
}.

(** A runtime value: only its class is observed by the decorators. *)
Record object : Type := mk_object {
  obj_repr : string;
  obj_class : class_obj
}.

(** [type(arg).__name__]. *)
Definition type_name (v : object) : string := cls_name (obj_class v).

(** [a is b] on function objects. *)
Definition same_function (a b : function) : bool := Nat.eqb (fn_id a) (fn_id b).

(** [(hasattr(class_method, '__func__') and class_method.__func__ is func)
     or class_method is func]. *)
Definition is_same_callable (class_method : attr_value) (func : function) : bool :=
  match class_method with
  | AttrBound g => same_function g func
  | AttrFunction g => same_function g func
  | AttrOther _ => false
  end.

(** Reading [__name__] on an object that has none. *)
Definition no_name : exn :=
  mk_exn "AttributeError" "object has no attribute '__name__'".

(** [_get_scope] of garnish.py.  Every object has [__class__] and the index
    [args[0]] is guarded by [args].  Reading [func.__name__] is what can
    fail inside the [try]; the handler reads it again, so for a callable
    without a name the [AttributeError] leaves the function. *)
Definition _get_scope (func : function) (args : list object) : outcome string :=
  let scope := match fn_module func with Some m => m | None => "<unknown>" end in
  match fn_name func with
  | None => Raised no_name
  | Some name =>
      match args with
      | a0 :: _ =>
          let class_obj := obj_class a0 in
          match cls_attrs class_obj !! name with
          | Some class_method =>
              if is_same_callable class_method func
              then Returned (scope +:+ "." +:+ cls_name class_obj +:+ "." +:+ name)
              else Returned (scope +:+ "." +:+ name)
          | None => Returned (scope +:+ "." +:+ name)
          end
      | [] => Returned (scope +:+ "." +:+ name)
      end
  end.

(** [x in l] for a list of strings. *)
Definition listed (l : list string) (x : string) : bool :=
  existsb (String.eqb x) l.

(** [_get_scope] of _garnish.py, the earlier version of the library:
    membership of the name in [dir(args[0].__class__)] decides.  The module
    name is read outside the [try], and the [try] guards the index alone. *)
Definition _get_scope_v1 (f : function) (args : list object) : outcome string :=
  match fn_module f with
  | None => Raised (mk_exn "AttributeError" "'NoneType' object has no attribute '__name__'")
  | Some _scope =>
      match fn_name f with
      | None => Raised no_name
      | Some name =>
          match args with
          | a0 :: _ =>
              if listed (cls_dir (obj_class a0)) name
              then Returned (_scope +:+ "." +:+ cls_name (obj_class a0) +:+ "." +:+ name)
              else Returned (_scope +:+ "." +:+ name)
          | [] => Returned (_scope +:+ "." +:+ name)
          end
      end
  end.

(** [functools.wraps(func)] applied to the [wrapper] closure a decorator
    defines: a new function object, with an identity of its own and the
    variadic parameters only, that takes over the module and, when
    there is one, the name of [func]; otherwise it keeps its own name. *)
Definition wraps (func : function) (fresh_id : nat) : function :=
  {| fn_id := fresh_id;
     fn_name := match fn_name func with Some n => Some n | None => Some "wrapper" end;
     fn_module := fn_module func;
     fn_argnames := Returned [] |}.

(** A decorated function: the wrapper returned by the decorator and the
    original function its closure keeps. *)
Record decorated : Type := mk_decorated {
  wrapper : function;
  wrapped : function
}.

(** [d = decorator(func)]. *)
Definition decorate (func : function) (fresh_id : nat) : decorated :=
  {| wrapper := wraps func fresh_id; wrapped := func |}.

(** The scope the wrapper computes when called with [args]:
    [scope = _get_scope(func, args)]. *)
Definition wrapper_scope (d : decorated) (args : list object) : outcome string :=
  _get_scope (wrapped d) args.

(** [instance.m(...)] where the class of [instance] holds the wrapper of
    [d] under the name [m]: the attribute is found on the class, bound to
    the instance, and the wrapper runs with [instance] as first argument.
    [None] when the attribute is not that wrapper. *)
Definition method_call_scope (d : decorated) (m : string) (instance : object)
    (rest : list object) : option (outcome string) :=
  match cls_attrs (obj_class instance) !! m with
  | Some (AttrFunction w) =>
      if same_function w (wrapper d)
      then Some (wrapper_scope d (instance :: rest))
      else None
  | _ => None
  end.

(** *** The world the wrappers act on *)

Record world : Type := mk_world {
  stdout : list string;                 (* what print wrote, oldest first *)
  log : list (string * string);         (* (level, message) records *)
  ticks : nat                           (* clock readings taken so far *)
}.

Definition print (line : string) (w : world) : world :=
  {| stdout := stdout w ++ [line]; log := log w; ticks := ticks w |}.

Definition logger_info (msg : string) (w : world) : world :=
  {| stdout := stdout w; log := log w ++ [("INFO", msg)]; ticks := ticks w |}.

Section Wrappers.

(** [repr] of a string, as used when a list of strings is formatted. *)
Variable repr_str : string -> string.

(** [str(l)] for a list of strings. *)
Definition str_list (l : list string) : string :=
  "[" +:+ join ", " (map repr_str l) +:+ "]".

(** The behaviour of a callable: positional arguments, keyword arguments
    (in call order) and the world in, the world and the outcome out. *)
Definition behaviour : Type :=
  list object -> list (string * object) -> world -> world * outcome object.

Definition arg_types (arg_names : list string) (args : list object) : list string :=
  map (fun p => fst p +:+ ": " +:+ type_name (snd p)) (zip arg_names args).

Definition kwarg_types (kwargs : list (string * object)) : list string :=
  map (fun kv => fst kv +:+ ": " +:+ type_name (snd kv)) kwargs.

Definition argtype_output (name : string) (arg_names : list string)
    (args : list object) (kwargs : list (string * object)) : string :=
  let output := "Calling " +:+ name +:+ " with arguments:" +:+ nl +:+ "  "
                +:+ str_list (arg_types arg_names args) in
  match kwarg_types kwargs with
  | [] => output
  | _ :: _ => output +:+ nl +:+ "  keyword-arguments: " +:+ str_list (kwarg_types kwargs)
  end.

(** The [wrapper] that [argtype(func)] returns; [call] is what calling
    [func] does.  The parameter names are asked for first and the name of
    the callable is read when the text is built, both before anything is
    logged or printed. *)
Definition argtype (func : function) (call : behaviour) : behaviour :=
  fun args kwargs w =>
    match fn_argnames func with
    | Raised e => (w, Raised e)
    | Returned arg_names =>
        match fn_name func with
        | None => (w, Raised no_name)
        | Some name =>
            let output := argtype_output name arg_names args kwargs in
            let w1 := logger_info output w in
            let w2 := print output w1 in
            call args kwargs w2
        end
    end.

End Wrappers.

(** *** Timer and Profiler *)

Section Scoped.

(** Clock readings: [now n] is what the [n]-th call of
    [time.perf_counter()] returns and [elapsed_between] is their
    difference.  [fixed x digits] is the text of [x] with that many decimal
    places; the format [f'{x:.{precision}f}'] accepts a precision from 0 to
    [precision_limit] and raises the [ValueError] [precision_error p] for
    any other integer [p]. *)
Variable time : Type.
Variable now : nat -> time.
Variable elapsed_between : time -> time -> time.
Variable fixed : time -> nat -> string.
Variable precision_limit : Z.
Variable precision_error : Z -> exn.
(** The statistics table [print_stats(limit)] writes into the buffer for
    the profile taken between two clock positions. *)
Variable stats_table : nat -> Z -> string.

(** [f'{x:.{precision}f}']. *)
Definition format_fixed (x : time) (precision : Z) : outcome string :=
  if ((0 <=? precision) && (precision <=? precision_limit))%Z
  then Returned (fixed x (Z.to_nat precision))
  else Raised (precision_error precision).

Definition perf_counter (w : world) : time * world :=
  (now (ticks w), {| stdout := stdout w; log := log w; ticks := S (ticks w) |}).

(** The context-manager protocol: [__enter__] and [__exit__] act on the
    manager's own state; [__exit__] receives the exception in flight, if
    any, and returns whether to suppress it. *)
Class ContextManager (M : Type) : Type := {
  cm_enter : M -> world -> world * outcome M;
  cm_exit : M -> option exn -> world -> world * outcome (M * bool)
}.

(** The [with] statement: [body] is the enclosed block. *)
Definition with_stmt {M : Type} `{ContextManager M} (mgr : M)
    (body : world -> world * outcome unit) (w : world) : world * outcome unit :=
  match cm_enter mgr w with
  | (w1, Raised e) => (w1, Raised e)
  | (w1, Returned m1) =>
      match body w1 with
      | (w2, Returned _) =>
          match cm_exit m1 None w2 with
          | (w3, Returned _) => (w3, Returned tt)
          | (w3, Raised e') => (w3, Raised e')
          end
      | (w2, Raised e) =>
          match cm_exit m1 (Some e) w2 with
          | (w3, Returned (_, true)) => (w3, Returned tt)
          | (w3, Returned (_, false)) => (w3, Raised e)
          | (w3, Raised e') => (w3, Raised e')
          end
      end
  end.

Record Timer : Type := mk_Timer {
  description : string;
  precision : Z;
  start_time : option time;
  elapsed : option time
}.

(** [Timer(description, precision)]. *)
Definition Timer_init (description : string) (precision : Z) : Timer :=
  mk_Timer description precision None None.

Definition Timer_enter (self : Timer) (w : world) : world * outcome Timer :=
  let (t, w1) := perf_counter w in
  (w1, Returned (mk_Timer (description self) (precision self) (Some t) (elapsed self))).

Definition Timer_exit (self : Timer) (exc : option exn) (w : world)
  : world * outcome (Timer * bool) :=
  let (t, w1) := perf_counter w in
  match start_time self with
  | None =>
      (w1, Raised (mk_exn "TypeError" "unsupported operand type(s) for -: 'float' and 'NoneType'"))
  | Some t0 =>
      let e := elapsed_between t t0 in
      let self' := mk_Timer (description self) (precision self) (start_time self) (Some e) in
      match format_fixed e (precision self') with
      | Raised err => (w1, Raised err)
      | Returned text =>
          (print (description self' +:+ " took " +:+ text +:+ " seconds") w1,
           Returned (self', false))
      end
  end.

#[export] Instance Timer_cm : ContextManager Timer :=
  {| cm_enter := Timer_enter; cm_exit := Timer_exit |}.

Record Profiler : Type := mk_Profiler {
  p_description : string;
  limit : Z;
  profiler : option nat   (* the running profile: the clock position it was enabled at *)
}.

Definition Profiler_init (description : string) (limit : Z) : Profiler :=
  mk_Profiler description limit None.

Definition Profiler_enter (self : Profiler) (w : world) : world * outcome Profiler :=
  (w, Returned (mk_Profiler (p_description self) (limit self) (Some (ticks w)))).

Definition Profiler_header (self : Profiler) : string :=
  nl +:+ "CPU Profile for " +:+ p_description self +:+ ":".

Definition Profiler_exit (self : Profiler) (exc : option exn) (w : world)
  : world * outcome (Profiler * bool) :=
  match profiler self with
  | None =>
      (w, Raised (mk_exn "AttributeError" "'NoneType' object has no attribute 'disable'"))
  | Some started =>
      let table := stats_table started (limit self) in
      (print table (print (Profiler_header self) w), Returned (self, false))
  end.

#[export] Instance Profiler_cm : ContextManager Profiler :=
  {| cm_enter := Profiler_enter; cm_exit := Profiler_exit |}.

(** [with Timer(...): body] and [with Profiler(...): body]. *)
Definition with_Timer (t : Timer) (body : world -> world * outcome unit)
  : world -> world * outcome unit := with_stmt t body.

Definition with_Profiler (p : Profiler) (body : world -> world * outcome unit)
  : world -> world * outcome unit := with_stmt p body.

End Scoped.

End Garnish.


(** ** banner.py: the banner printer *)

Module Banner.

Section Logo.

(** The services [Logo] calls.  [font_dir] is [Path(Config.FONT_DIR)]: the
    configured directory, or the failure of resolving it (attribute missing,
    value not a path). *)
Variable font_dir : outcome string.
(** [font_path / name]. *)
Variable joinpath : string -> string -> string.
(** [FigletFont.getFonts()]. *)
Variable getFonts : outcome (list string).
(** [custom_font.is_file()]. *)
Variable is_file : string -> bool.
(** [FigletFont.installFonts(path)]. *)
Variable installFonts : string -> outcome unit.
(** [Figlet(font=font_name, width=120, justify='left')]. *)
Variable Figlet : string -> nat -> string -> outcome unit.
(** [f.renderText(text)]. *)
Variable renderText : string -> outcome string.
(** The error [console.print(text)] raises for a text whose markup it
    cannot read, if any; nothing is written then. *)
Variable markup_error : string -> option exn.

(** [console.print(text)] after [printed] was written. *)
Definition console_print (text : string) (printed : list string)
  : list string * outcome unit :=
  match markup_error text with
  | Some e => (printed, Raised e)
  | None => (printed ++ [text], Returned tt)
  end.

Definition bold_blue (s : string) : string := "[bold blue]" +:+ s +:+ "[/bold blue]".
Definition bold_red (s : string) : string := "[bold red]" +:+ s +:+ "[/bold red]".

Definition font_name : string := "3d".

(** [x in l] for a list of strings. *)
Definition contains (l : list string) (x : string) : bool :=
  existsb (String.eqb x) l.

(** The first two statements of the [try] block: make sure the font is
    registered. *)
Definition ensure_font (font_path : string) : outcome unit :=
  match getFonts with
  | Raised e => Raised e
  | Returned fonts =>
      if contains fonts font_name then Returned tt
      else
        let custom_font := joinpath font_path (font_name +:+ ".flf") in
        if is_file custom_font
        then installFonts custom_font
        else Raised (mk_exn "FileNotFoundError"
                            ("Font file '" +:+ custom_font +:+ "' not found."))
  end.

(** The body of the [try] block: the lines printed and how it ended. *)
Definition try_block (font_path version author : string)
  : list string * outcome unit :=
  match ensure_font font_path with
  | Raised e => ([], Raised e)
  | Returned _ =>
      match Figlet font_name 120 "left" with
      | Raised e => ([], Raised e)
      | Returned _ =>
          match renderText "TickerTricker" with
          | Raised e => ([], Raised e)
          | Returned art =>
              match console_print (bold_blue art) [] with
              | (p1, Raised e) => (p1, Raised e)
              | (p1, Returned _) =>
                  match console_print (bold_blue ("AUTHOR: " +:+ author)) p1 with
                  | (p2, Raised e) => (p2, Raised e)
                  | (p2, Returned _) =>
                      console_print (bold_blue ("VERSION: " +:+ version) +:+ PyStr.nl) p2
                  end
              end
          end
      end
  end.

(** [Logo(version, author)]: the lines written to the console and the
    outcome seen by the caller.  The directory is resolved before the [try]
    statement is entered; the handler prints the error line outside any
    [try]. *)
Definition Logo (version author : string) : list string * outcome unit :=
  match font_dir with
  | Raised e => ([], Raised e)
  | Returned font_path =>
      match try_block font_path version author with
      | (printed, Returned _) => (printed, Returned tt)
      | (printed, Raised e) =>
          console_print (bold_red ("Error loading font: " +:+ exc_text e)) printed
      end
  end.

End Logo.

End Banner.

(** ** logman.py: loggers and run metadata *)

Module Logman.

(** *** The logger registry *)

(** A sink attached to a logger. *)
Inductive handler : Type :=
| RotatingFileHandler (filename : string) (maxBytes : Z) (backupCount : Z)
                      (level : string) (fmt : string) (datefmt : string).

Record logger : Type := mk_logger {
  logger_level : option string;
  handlers : list handler
}.

(** The process: the name-keyed registry of [logging], the directories
    created so far, and the number of clock readings taken. *)
Record world : Type := mk_world {
  loggers : gmap string logger;
  made_dirs : list string;
  clock_reads : nat
}.

(** The key of a logger in the registry: the empty name and the name
    "root" both denote the root logger. *)
Definition logger_key (name : string) : string :=
  if String.eqb name EmptyString || String.eqb name "root" then "root" else name.

(** [logging.getLogger(name)]: the registered logger, or a new one without
    level or sinks, which is registered. *)
Definition getLogger (name : string) (w : world) : logger * world :=
  match loggers w !! logger_key name with
  | Some l => (l, w)
  | None =>
      let l := mk_logger None [] in
      (l, mk_world (<[logger_key name := l]> (loggers w)) (made_dirs w) (clock_reads w))
  end.

(** A change made to the logger [name] denotes. *)
Definition update_logger (name : string) (l : logger) (w : world) : world :=
  mk_world (<[logger_key name := l]> (loggers w)) (made_dirs w) (clock_reads w).

Section GetLogger.

(** [Config.LOG_LEVEL]. *)
Variable LOG_LEVEL : string.
(** [os.getcwd()] and [os.path.join]. *)
Variable getcwd : string.
Variable path_join : string -> string -> string.
(** [os.makedirs(path, exist_ok=True)]: the failure, if it fails. *)
Variable makedirs : string -> option exn.
(** Opening the log file when the sink is built: the failure, if it fails. *)
Variable open_file : string -> option exn.
(** [datetime.now().strftime("%Y%m%d_%H%M%S")] at the [n]-th clock reading. *)
Variable timestamp : nat -> string.

Definition file_format : string :=
  "[%(asctime)s.%(msecs)03d] [%(levelname)s] [%(module)s] - %(funcName)s: %(message)s".

(** [get_logger(name)]: the world after the call and the handle returned
    (the key of the logger [name] denotes). *)
Definition get_logger (name : string) (w : world) : world * outcome string :=
  let (lg, w0) := getLogger name w in
  match handlers lg with
  | _ :: _ => (w0, Returned (logger_key name))
  | [] =>
      let lg1 := mk_logger (Some LOG_LEVEL) (handlers lg) in
      let w1 := update_logger name lg1 w0 in
      let log_folder := path_join getcwd "logs" in
      match makedirs log_folder with
      | Some e => (w1, Raised e)
      | None =>
          let w2 := mk_world (loggers w1) (made_dirs w1 ++ [log_folder]) (clock_reads w1) in
          let log_filename :=
            path_join log_folder (timestamp (clock_reads w2) +:+ ".txt") in
          let w3 := mk_world (loggers w2) (made_dirs w2) (S (clock_reads w2)) in
          match open_file log_filename with
          | Some e => (w3, Raised e)
          | None =>
              let file_handler :=
                RotatingFileHandler log_filename (5 * 1024 * 1024) 5 LOG_LEVEL
                                    file_format "%Y-%m-%d %H:%M:%S" in
              let lg2 := mk_logger (logger_level lg1) (handlers lg1 ++ [file_handler]) in
              (update_logger name lg2 w3, Returned (logger_key name))
          end
      end
  end.

(** The sinks of the logger [name] denotes. *)
Definition sinks (name : string) (w : world) : list handler :=
  match loggers w !! logger_key name with
  | Some l => handlers l
  | None => []
  end.

End GetLogger.

(** *** Run metadata *)

Inductive pyval : Type :=
| VInt (z : Z)
| VStr (s : string).

Section Metadata.

(** [subprocess.check_output(["git", "rev-parse", "HEAD"], text=True)]. *)
Variable git_rev_parse : outcome string.
(** [import tensorflow as tf; tf.__version__]. *)
Variable tensorflow_version : outcome string.
(** [import numpy as np; np.__version__]. *)
Variable numpy_version : outcome string.
Variable gethostname : string.
Variable python_version : string.
(** [datetime.now(timezone.utc).isoformat()]. *)
Variable utc_now_iso : string.

(** [s.strip()]. *)
Variable strip : string -> string.

Definition collect_run_metadata (seed : Z) : outcome (gmap string pyval) :=
  let git_sha :=
    match git_rev_parse with
    | Returned out => strip out
    | Raised _ => "unknown"
    end in
  let tf_ver :=
    match tensorflow_version with
    | Returned v => v
    | Raised _ => "not-imported"
    end in
  match numpy_version with
  | Raised e => Raised e
  | Returned np_ver =>
      Returned
        (<["seed" := VInt seed]>
         (<["git_sha" := VStr git_sha]>
          (<["host" := VStr gethostname]>
           (<["python" := VStr python_version]>
            (<["tensorflow" := VStr tf_ver]>
             (<["numpy" := VStr np_ver]>
              (<["started_at" := VStr utc_now_iso]> ∅)))))))
  end.

(** The keys of the record. *)
Definition metadata_keys : list string :=
  ["seed"; "git_sha"; "host"; "python"; "tensorflow"; "numpy"; "started_at"].

End Metadata.

End Logman.


(** ** Spec-side notions and sample programs *)

Module DocweaverSpec.
Import PyStr Docweaver.

(** The parameters of a signature in declaration order, each with the name
    it is displayed under: the variadic ones carry their star markers. *)
Definition shown (marker : string) (a : arg) : string * arg :=
  (marker +:+ arg_name a, a).

Definition declared (a : arguments) : list (string * arg) :=
  map (shown EmptyString) (posonlyargs a)
  ++ map (shown EmptyString) (args a)
  ++ map (shown "*") (option_list (vararg a))
  ++ map (shown EmptyString) (kwonlyargs a)
  ++ map (shown "**") (option_list (kwarg a)).

(** A statement is a definition that carries its own documentation: its
    body starts with a string-constant expression statement. *)
Definition documented_definition (s : stmt) : bool :=
  match s with
  | FunctionDef _ body | AsyncFunctionDef _ body | ClassDef _ _ body _ =>
      negb (docstring_is_none body)
  | _ => false
  end.

(** The body of a definition. *)
Definition body_of (s : stmt) : list stmt :=
  match s with
  | FunctionDef _ body | AsyncFunctionDef _ body | ClassDef _ _ body _ => body
  | _ => []
  end.

(** Every definition in the statement, at any depth, is documented. *)
Fixpoint all_documented (s : stmt) : bool :=
  match s with
  | FunctionDef _ body | AsyncFunctionDef _ body | ClassDef _ _ body _ =>
      negb (docstring_is_none body) && forallb all_documented body
  | Compound _ _ blocks => forallb (forallb all_documented) blocks
  | Expr _ | Pass | Simple _ _ => true
  end.

(** A text of several lines. *)
Definition newline : string := String (ascii_of_nat 10) EmptyString.

Definition text_of (lines : list string) : string := String.concat newline lines.

(** The notice every function skeleton carries. *)
Definition skeleton_notice : string :=
  "This is an auto-generated docstring skeleton. Please update the description and parameter details as appropriate.".



Section Rendering.

Variable unparse : expr -> option string.
Variable repr : expr -> string.

(** The text of an expression: what the renderer gives, or the fallback
    when the renderer raises. *)
Definition rendered (e : expr) : string :=
  match unparse e with
  | Some text => text
  | None => repr e
  end.

(** The rendered annotation of a parameter, empty when it has none. *)
Definition annotation_of (a : arg) : string :=
  match annotation a with
  | Some e => rendered e
  | None => EmptyString
  end.

(** The Args line of an annotated parameter. *)
Definition annotated_line (p : string * arg) : string :=
  "    " +:+ fst p +:+ " (" +:+ annotation_of (snd p) +:+ "): TODO: describe parameter.".

(** The parameter has an annotation and its rendered text is not empty. *)
Definition well_annotated (a : arg) : Prop :=
  exists e, annotation a = Some e /\ rendered e <> EmptyString.



(** The Returns section for a return annotation, if any. *)
Definition returns_lines (r : string) : list string :=
  [EmptyString; "Returns:"; "    " +:+ r +:+ ": TODO: describe return value."].

End Rendering.

(** A renderer for the sample programs: names render as themselves, the
    constant [None] as its keyword; other nodes make it raise. *)
Definition sample_unparse (e : expr) : option string :=
  match e with
  | Name id => Some id
  | Constant CNone => Some "None"
  | _ => None
  end.

Definition sample_repr (e : expr) : string := "<ast node>".

(** Capitalisation of text outside ASCII, not met in the samples. *)
Definition sample_capitalize (s : string) : string := s.

Definition no_arguments : arguments :=
  mk_arguments [] [] None [] [] None [].

Definition positional (l : list arg) : arguments :=
  mk_arguments [] l None [] [] None [].

Definition int_ann : option expr := Some (Name "int").

(** [def add(a: int, b: int) -> int: return a + b] *)
Definition add_def : funcdef :=
  mk_funcdef "add" (positional [mk_arg "a" int_ann; mk_arg "b" int_ann]) [] int_ann.

Definition add_body : list stmt :=
  [Simple "Return" [BinOp (Name "a") "+" (Name "b")]].

(** [def todo(): pass] *)
Definition todo_def : funcdef := mk_funcdef "todo" no_arguments [] None.



(** [class Widget:  def __init__(self, size: int): self.size = size] *)
Definition init_def : funcdef :=
  mk_funcdef "__init__" (positional [mk_arg "self" None; mk_arg "size" int_ann]) [] None.

Definition init_body : list stmt :=
  [Simple "Assign" [Attribute (Name "self") "size"; Name "size"]].

(** A file in which every definition is documented. *)
Definition documented_file : list stmt :=
  [ClassDef "Widget" []
     [Expr (Constant (CStr "A widget."));
      FunctionDef init_def (Expr (Constant (CStr "Set the size.")) :: init_body)]
     [];
   FunctionDef add_def (Expr (Constant (CStr "Add two numbers.")) :: add_body)].

End DocweaverSpec.

Module GarnishSpec.
Import PyStr Garnish.

(** The module part of a scope name. *)
Definition module_text (func : function) : string :=
  match fn_module func with Some m => m | None => "<unknown>" end.

(** The name of a callable, empty when it has none. *)
Definition name_text (func : function) : string :=
  match fn_name func with Some n => n | None => EmptyString end.

(** The two shapes of a scope name. *)
Definition function_form (func : function) : string :=
  module_text func +:+ "." +:+ name_text func.

Definition method_form (func : function) (c : class_obj) : string :=
  module_text func +:+ "." +:+ cls_name c +:+ "." +:+ name_text func.

(** The class holds, under the name [n], the callable itself or a bound
    method of it. *)
Definition holds_callable (c : class_obj) (n : string) (func : function) : Prop :=
  exists g, (cls_attrs c !! n = Some (AttrFunction g)
             \/ cls_attrs c !! n = Some (AttrBound g))
            /\ fn_id g = fn_id func.

(** The line break. *)
Definition line_break : string := String (ascii_of_nat 10) EmptyString.

(** A sample [repr] of strings, in single quotes. *)
Definition quote_text (s : string) : string := "'" +:+ s +:+ "'".

(** [str] of a list of strings: the items, each as [repr] shows it,
    separated by commas inside square brackets. *)
Definition bracketed (repr_str : string -> string) (l : list string) : string :=
  "[" +:+ String.concat ", " (map repr_str l) +:+ "]".

(** The demonstration at the end of garnish.py:
    [class ExampleClass:  @trace  def method(self, value): ...] followed by
    [obj = ExampleClass(); obj.method(10)]. *)
Definition method_function : function :=
  mk_function 1 (Some "method") (Some "__main__") (Returned ["self"; "value"]).

Definition traced_method : decorated := decorate method_function 2.

Definition ExampleClass : class_obj :=
  mk_class "ExampleClass" {[ "method" := AttrFunction (wrapper traced_method) ]}
           ["__class__"; "__dict__"; "__doc__"; "__init__"; "__module__"; "method"].

Definition int_class : class_obj := mk_class "int" ∅ [].
Definition str_class : class_obj := mk_class "str" ∅ [].

Definition obj : object := mk_object "obj" ExampleClass.
Definition ten : object := mk_object "10" int_class.

(** [def f(a, b): ...] called with three positional arguments. *)
Definition f_two_params : function :=
  mk_function 3 (Some "f") (Some "__main__") (Returned ["a"; "b"]).

Definition three_args : list object :=
  [mk_object "1" int_class; mk_object "'x'" str_class; mk_object "3" int_class].

(** The built-in [max], whose parameters cannot be inspected. *)
Definition builtin_max : function :=
  mk_function 4 (Some "max") (Some "builtins")
              (Raised (mk_exn "TypeError" "unsupported callable")).

(** [functools.partial(f, 1)]: a callable without [__name__]. *)
Definition partial_f : function :=
  mk_function 5 None (Some "functools") (Returned ["a"; "b"]).

(** A block that prints a line and then raises. *)
Definition failing_block (w : world) : world * outcome unit :=
  (print "working" w, Raised (mk_exn "ValueError" "boom")).

(** A callable that prints a line and returns its first argument. *)
Definition echo : list object -> list (string * object) -> world -> world * outcome object :=
  fun args kwargs w =>
    (print "called" w, Returned (default (mk_object "None" (mk_class "NoneType" ∅ [])) (head args))).

Definition empty_world : world := mk_world [] [] 0.

(** A class that holds [method_function] itself under its name. *)
Definition PlainClass : class_obj :=
  mk_class "PlainClass" {[ "method" := AttrFunction method_function ]} ["method"].

Definition plain_obj : object := mk_object "plain" PlainClass.

(** The rule of sixty equal signs. *)
Definition sixty_equals : string :=
  "============================================================".

Definition sample_getdoc (f : function) : option string := None.
Definition sample_sorted (key : string) (limit : Z) (started : nat) : outcome string :=
  Returned "<profile>".

(** Sample clock and number format. *)
Definition sample_now (n : nat) : nat := 10 * n.
Definition sample_elapsed (a b : nat) : nat := a - b.
Definition sample_fixed (t : nat) (digits : nat) : string := "0.010".
Definition sample_precision_error (p : Z) : exn :=
  mk_exn "ValueError" "Format specifier missing precision".
Definition sample_stats (started : nat) (limit : Z) : string := "<table>".

End GarnishSpec.

Module BannerSpec.
Import Banner.

(** *** What the guarded sequence of [Logo] does, step by step *)

Section GuardedSequence.

Variable joinpath : string -> string -> string.
Variable getFonts : outcome (list string).
Variable is_file : string -> bool.
Variable installFonts : string -> outcome unit.
Variable Figlet : string -> nat -> string -> outcome unit.
Variable renderText : string -> outcome string.
Variable markup_error : string -> option exn.
Variable d version author : string.

Definition font_file : string := joinpath d "3d.flf".

Definition blue (s : string) : string := "[bold blue]" +:+ s +:+ "[/bold blue]".

Definition author_line : string := "[bold blue]AUTHOR: " +:+ author +:+ "[/bold blue]".

Definition version_line : string :=
  ("[bold blue]VERSION: " +:+ version +:+ "[/bold blue]")
  +:+ String (ascii_of_nat 10) EmptyString.

(** The error line for a failure. *)
Definition red_line (e : exn) : string :=
  "[bold red]Error loading font: " +:+ exc_text e +:+ "[/bold red]".

(** The font is registered when rendering starts: it was already, or its
    file was found and installed. *)
Definition font_ready : Prop :=
  exists fonts,
    getFonts = Returned fonts
    /\ (In "3d" fonts
        \/ (is_file font_file = true /\ installFonts font_file = Returned tt)).

(** [guarded printed failure]: the guarded sequence printed the lines
    [printed] and then failed with [failure], or ran to its end. *)
Inductive guarded : list string -> option exn -> Prop :=
| fonts_unknown (e : exn) :
    getFonts = Raised e -> guarded [] (Some e)
| font_file_missing (fonts : list string) :
    getFonts = Returned fonts -> ~ In "3d" fonts -> is_file font_file = false ->
    guarded [] (Some (mk_exn "FileNotFoundError"
                             ("Font file '" +:+ font_file +:+ "' not found.")))
| install_failed (fonts : list string) (e : exn) :
    getFonts = Returned fonts -> ~ In "3d" fonts -> is_file font_file = true ->
    installFonts font_file = Raised e -> guarded [] (Some e)
| figlet_failed (e : exn) :
    font_ready -> Figlet "3d" 120 "left" = Raised e -> guarded [] (Some e)
| render_failed (e : exn) :
    font_ready -> Figlet "3d" 120 "left" = Returned tt ->
    renderText "TickerTricker" = Raised e -> guarded [] (Some e)
| art_refused (art : string) (e : exn) :
    font_ready -> Figlet "3d" 120 "left" = Returned tt ->
    renderText "TickerTricker" = Returned art ->
    markup_error (blue art) = Some e -> guarded [] (Some e)
| author_refused (art : string) (e : exn) :
    font_ready -> Figlet "3d" 120 "left" = Returned tt ->
    renderText "TickerTricker" = Returned art ->
    markup_error (blue art) = None ->
    markup_error author_line = Some e -> guarded [blue art] (Some e)
| version_refused (art : string) (e : exn) :
    font_ready -> Figlet "3d" 120 "left" = Returned tt ->
    renderText "TickerTricker" = Returned art ->
    markup_error (blue art) = None ->
    markup_error author_line = None ->
    markup_error version_line = Some e -> guarded [blue art; author_line] (Some e)
| completed (art : string) :
    font_ready -> Figlet "3d" 120 "left" = Returned tt ->
    renderText "TickerTricker" = Returned art ->
    markup_error (blue art) = None ->
    markup_error author_line = None ->
    markup_error version_line = None ->
    guarded [blue art; author_line; version_line] None.

End GuardedSequence.

(** A host without the font: nothing is registered and no file exists. *)
Definition plain_join (dir file : string) : string := dir +:+ "/" +:+ file.
Definition no_fonts : outcome (list string) := Returned ["standard"].
Definition no_file (path : string) : bool := false.
Definition install_ok (path : string) : outcome unit := Returned tt.
Definition figlet_ok (font : string) (width : nat) (justify : string) : outcome unit :=
  Returned tt.
Definition render_ok (text : string) : outcome string := Returned ("<" +:+ text +:+ ">").
Definition markup_ok (text : string) : option exn := None.

(** [Config] without a [FONT_DIR] attribute. *)
Definition missing_config : outcome string :=
  Raised (mk_exn "AttributeError" "type object 'Config' has no attribute 'FONT_DIR'").

End BannerSpec.

Module LogmanSpec.
Import Logman.

Definition fresh_process : world := mk_world ∅ [] 0.

(** The names of the root logger, and names that denote the same logger. *)
Definition is_root_name (n : string) : Prop := n = EmptyString \/ n = "root".

Definition same_logger (a b : string) : Prop :=
  a = b \/ (is_root_name a /\ is_root_name b).

Definition posix_join (a b : string) : string := a +:+ "/" +:+ b.
Definition always_ok (path : string) : option exn := None.
Definition fixed_stamp (n : nat) : string := "20240101_000000".

Definition git_missing : outcome string :=
  Raised (mk_exn "FileNotFoundError" "[Errno 2] No such file or directory: 'git'").

Definition tf_missing : outcome string :=
  Raised (mk_exn "ModuleNotFoundError" "No module named 'tensorflow'").

End LogmanSpec.

(** ** docweaver.py: [process_file] *)

Module DocweaverFile.
Import PyStr Docweaver.

Section ProcessFile.

Variable unparse : expr -> option string.
Variable repr : expr -> string.
Variable unicode_capitalize : string -> string.
(** [ast.parse(source)]: the statements of the module, or the syntax error. *)
Variable parse : string -> outcome (list stmt).
(** [ast.unparse(new_tree)] on a module: the text, or [None] when it raises. *)
Variable unparse_module : list stmt -> option string.
(** [open(output_path, "w", encoding="utf-8")]: the failure, if it fails. *)
Variable open_for_writing : string -> option exn.

Definition unparse_unavailable : exn :=
  mk_exn "RuntimeError"
    ("ast.unparse is not available. "
     +:+ "You need Python 3.9+ or install 'astor' and adapt the script.").

Definition no_such_file (path : string) : exn :=
  mk_exn "FileNotFoundError" ("[Errno 2] No such file or directory: '" +:+ path +:+ "'").

(** [process_file(input_path, output_path)] over the text files of the file
    system, keyed by path: the files after the call and its outcome.
    [ast.fix_missing_locations] only fills in line numbers, which the trees
    of this model do not carry. *)
Definition process_file (input_path output_path : string)
    (files : gmap string string) : gmap string string * outcome unit :=
  match files !! input_path with
  | None => (files, Raised (no_such_file input_path))
  | Some source =>
      match parse source with
      | Raised e => (files, Raised e)
      | Returned tree =>
          let new_tree := visit_module unparse repr unicode_capitalize tree in
          match unparse_module new_tree with
          | None => (files, Raised unparse_unavailable)
          | Some new_source =>
              match open_for_writing output_path with
              | Some e => (files, Raised e)
              | None => (<[output_path := new_source]> files, Returned tt)
              end
          end
      end
  end.

End ProcessFile.

(** *** Measures on syntax trees *)

(** Number of statements, at every depth. *)
Fixpoint count_stmts (s : stmt) : nat :=
  match s with
  | FunctionDef _ body | AsyncFunctionDef _ body | ClassDef _ _ body _ =>
      S (list_sum (map count_stmts body))
  | Compound _ _ blocks => S (list_sum (map (fun b => list_sum (map count_stmts b)) blocks))
  | Expr _ | Pass | Simple _ _ => 1
  end.

(** A definition body that lacks documentation and is not empty. *)
Definition lacks_doc (body : list stmt) : nat :=
  if docstring_is_none body && nonempty body then 1 else 0.

(** Number of definitions, at every depth, with a non-empty body and no
    leading documentation statement. *)
Fixpoint count_missing (s : stmt) : nat :=
  match s with
  | FunctionDef _ body | AsyncFunctionDef _ body | ClassDef _ _ body _ =>
      lacks_doc body + list_sum (map count_missing body)
  | Compound _ _ blocks => list_sum (map (fun b => list_sum (map count_missing b)) blocks)
  | Expr _ | Pass | Simple _ _ => 0
  end.

(** The header of every definition, in source order: whether it is a class,
    a function or an asynchronous function, and its fields other than the
    body. *)
Inductive header : Type :=
| HFunction (func : funcdef)
| HAsync (func : funcdef)
| HClass (cname : string) (bases decorators : list expr).

Fixpoint headers (s : stmt) : list header :=
  match s with
  | FunctionDef func body => HFunction func :: List.concat (map headers body)
  | AsyncFunctionDef func body => HAsync func :: List.concat (map headers body)
  | ClassDef cname bases body decos => HClass cname bases decos :: List.concat (map headers body)
  | Compound _ _ blocks => List.concat (map (fun b => List.concat (map headers b)) blocks)
  | Expr _ | Pass | Simple _ _ => []
  end.

(** Every definition, at every depth, has an empty body or starts with a
    documentation statement. *)
Fixpoint settled (s : stmt) : bool :=
  match s with
  | FunctionDef _ body | AsyncFunctionDef _ body | ClassDef _ _ body _ =>
      negb (docstring_is_none body && nonempty body) && forallb settled body
  | Compound _ _ blocks => forallb (forallb settled) blocks
  | Expr _ | Pass | Simple _ _ => true
  end.

(** No ASCII capital letter in the string. *)
Fixpoint no_capitals (s : string) : bool :=
  match s with
  | EmptyString => true
  | String c rest => negb (is_upper c) && no_capitals rest
  end.

(** The character does not occur in the string. *)
Fixpoint lacks_char (x : ascii) (s : string) : bool :=
  match s with
  | EmptyString => true
  | String c rest => negb (Ascii.eqb c x) && lacks_char x rest
  end.

(** A parser and printer for the sample file of one function. *)
Definition sample_source : string := "def add(a: int, b: int) -> int: return a + b".
Definition sample_tree : list stmt :=
  [FunctionDef
     (mk_funcdef "add"
        (mk_arguments [] [mk_arg "a" (Some (Name "int")); mk_arg "b" (Some (Name "int"))]
                      None [] [] None [])
        [] (Some (Name "int")))
     [Simple "Return" [BinOp (Name "a") "+" (Name "b")]]].
Definition sample_name_unparse (e : expr) : option string :=
  match e with Name id => Some id | _ => None end.
Definition sample_node_repr (e : expr) : string := "<ast node>".
Definition sample_caps (s : string) : string := s.
Definition sample_output : string := "def add(a: int, b: int) -> int: <doc>; return a + b".
Definition sample_parse (source : string) : outcome (list stmt) :=
  if String.eqb source sample_source then Returned sample_tree
  else if String.eqb source sample_output
       then Returned (visit_module sample_name_unparse sample_node_repr sample_caps sample_tree)
       else Raised (mk_exn "SyntaxError" "invalid syntax").
Definition sample_print (tree : list stmt) : option string := Some sample_output.
Definition writable (path : string) : option exn := None.
Definition sample_files : gmap string string := {[ "in.py" := sample_source ]}.

End DocweaverFile.

(** ** garnish.py: the remaining decorators *)

Module GarnishWrappers.
Import PyStr Garnish.



(** ["=" * 60]. *)
Definition rule : string := String.concat EmptyString (replicate 60 "=").

Section Decorators.

Variable time : Type.
Variable now : nat -> time.
Variable elapsed_between : time -> time -> time.
Variable fixed : time -> nat -> string.
Variable precision_limit : Z.
Variable precision_error : Z -> exn.
(** [repr] of a string and [str] of a natural number. *)
Variable repr_str : string -> string.
Variable str_nat : nat -> string.
(** [inspect.getdoc(func)]. *)
Variable getdoc : function -> option string.
(** The table that [sort_stats(key)] and [print_stats(limit)] leave in the
    buffer for the profile started at a clock position; sorting raises for a
    key it does not know. *)
Variable stats_sorted : string -> Z -> nat -> outcome string.


(** [timeit(func, precision)]. *)
Definition timeit (precision : Z) (func : function) (call : behaviour) : behaviour :=
  fun args kwargs w =>
    match _get_scope func args with
    | Raised e => (w, Raised e)
    | Returned scope =>
        let w1 := print ("Execution speed of " +:+ scope +:+ ":") w in
        let (start_time, w2) := perf_counter time now w1 in
        match call args kwargs w2 with
        | (w3, Raised e) => (w3, Raised e)
        | (w3, Returned result) =>
            let (end_time, w4) := perf_counter time now w3 in
            let elapsed := elapsed_between end_time start_time in
            match format_fixed time fixed precision_limit precision_error
                               elapsed precision with
            | Raised e => (w4, Raised e)
            | Returned text =>
                let w5 := print ("took " +:+ text +:+ " seconds.") w4 in
                let w6 := logger_info (scope +:+ " took " +:+ text +:+ " seconds") w5 in
                (w6, Returned result)
            end
        end
    end.


(** [docs(func)]. *)
Definition docs (func : function) (call : behaviour) : behaviour :=
  fun args kwargs w =>
    match _get_scope func args with
    | Raised e => (w, Raised e)
    | Returned scope =>
        let w1 := print ("Documentation for " +:+ scope +:+ ":") w in
        let w2 :=
          match getdoc func with
          | Some doc => if truthy doc then print doc w1
                        else print "No documentation available." w1
          | None => print "No documentation available." w1
          end in
        call args kwargs w2
    end.

(** [cputime(func, sort_by, limit)]. *)
Definition cputime (sort_by : string) (limit : Z) (func : function)
    (call : behaviour) : behaviour :=
  fun args kwargs w =>
    match _get_scope func args with
    | Raised e => (w, Raised e)
    | Returned scope =>
        let w1 := print ("CPU runtime for " +:+ scope +:+ ":") w in
        match call args kwargs w1 with
        | (w2, Raised e) => (w2, Raised e)
        | (w2, Returned result) =>
            match stats_sorted sort_by limit (ticks w1) with
            | Raised e => (w2, Raised e)
            | Returned table => (print table w2, Returned result)
            end
        end
    end.

(** The opening block of [profile_all], once the parameter names are
    known. *)
Definition profile_opening (scope : string) (arg_names : list string)
    (args : list object) (kwargs : list (string * object)) (w : world) : world :=
  let w1 := print (nl +:+ rule) w in
  let w2 := print ("Profiling " +:+ scope) w1 in
  let w3 := print ("Arguments: " +:+ str_list repr_str (arg_types arg_names args)) w2 in
  match kwargs with
  | [] => w3
  | _ :: _ => print ("Keyword arguments: " +:+ str_list repr_str (map fst kwargs)) w3
  end.

(** What follows the opening block in [profile_all]; [w1] is the world
    after that block. *)
Definition profile_rest (show_args show_time show_cpu : bool) (call : behaviour)
    (args : list object) (kwargs : list (string * object)) (w1 : world)
  : world * outcome object :=
  let started := ticks w1 in
  let (start_time, w2) :=
    if show_time
    then let (t, w') := perf_counter time now w1 in (Some t, w')
    else (None, w1) in
  match call args kwargs w2 with
  | (w3, Raised e) => (w3, Raised e)
  | (w3, Returned result) =>
      let w4 :=
        match start_time with
        | Some t0 =>
            let (t, w') := perf_counter time now w3 in
            print ("Execution time: " +:+ fixed (elapsed_between t t0) 3
                   +:+ " seconds") w'
        | None => w3
        end in
      let after_cpu :=
        if show_cpu
        then match stats_sorted "cumulative" 10 started with
             | Raised e => (w4, Some e)
             | Returned table =>
                 (print table (print (nl +:+ "CPU Profile (top 10):") w4), None)
             end
        else (w4, None) in
      match after_cpu with
      | (w5, Some e) => (w5, Raised e)
      | (w5, None) =>
          if show_args || show_time || show_cpu
          then (print (rule +:+ nl) w5, Returned result)
          else (w5, Returned result)
      end
  end.

(** [profile_all(func, show_args, show_time, show_cpu)]. *)
Definition profile_all (show_args show_time show_cpu : bool) (func : function)
    (call : behaviour) : behaviour :=
  fun args kwargs w =>
    match _get_scope func args with
    | Raised e => (w, Raised e)
    | Returned scope =>
        if show_args
        then match fn_argnames func with
             | Raised e => (w, Raised e)
             | Returned arg_names =>
                 profile_rest show_args show_time show_cpu call args kwargs
                              (profile_opening scope arg_names args kwargs w)
             end
        else profile_rest show_args show_time show_cpu call args kwargs w
    end.

End Decorators.

(** Sample services. *)
Definition quoted (s : string) : string := "'" +:+ s +:+ "'".

End GarnishWrappers.

(** ** exceptions.py: the error classes *)

Module Exceptions.

Inductive error_class : Type :=
| StockSignalError
| NetworkError
| DataNotFoundError
| DataError
| DataProcessingError
| FileError
| InvalidPathError
| ConfigError
| InvalidConfigurationError
| ModelError
| ModelNotTrainedError
| ModelLoadingError
| SignalError
| SlackNotificationError
| DatabaseError
| DatabaseConnectionError
| DatabaseQueryError.

(** The base named in the class statement; [None] for the built-in
    [Exception]. *)
Definition base (k : error_class) : option error_class :=
  match k with
  | StockSignalError => None
  | NetworkError => Some StockSignalError
  | DataNotFoundError => Some StockSignalError
  | DataError => Some StockSignalError
  | DataProcessingError => Some StockSignalError
  | FileError => Some StockSignalError
  | InvalidPathError => Some FileError
  | ConfigError => Some StockSignalError
  | InvalidConfigurationError => Some ConfigError
  | ModelError => Some StockSignalError
  | ModelNotTrainedError => Some ModelError
  | ModelLoadingError => Some ModelError
  | SignalError => Some StockSignalError
  | SlackNotificationError => Some SignalError
  | DatabaseError => Some StockSignalError
  | DatabaseConnectionError => Some DatabaseError
  | DatabaseQueryError => Some DatabaseError
  end.

#[export] Instance error_class_eq_dec : EqDecision error_class.
Proof. solve_decision. Defined.

Definition all_classes : list error_class :=
  [StockSignalError; NetworkError; DataNotFoundError; DataError; DataProcessingError;
   FileError; InvalidPathError; ConfigError; InvalidConfigurationError; ModelError;
   ModelNotTrainedError; ModelLoadingError; SignalError; SlackNotificationError;
   DatabaseError; DatabaseConnectionError; DatabaseQueryError].

(** [b] is [a] or is reached from [a] by following bases, in at most [fuel]
    steps. *)
Fixpoint reaches (fuel : nat) (a b : error_class) : bool :=
  if bool_decide (a = b) then true
  else match fuel with
       | 0 => false
       | S n => match base a with
                | Some p => reaches n p b
                | None => false
                end
       end.

(** [issubclass(a, b)]: a chain of bases is no longer than the number of
    classes. *)
Definition issubclass (a b : error_class) : bool :=
  reaches (List.length all_classes) a b.

(** Whether [except handler:] catches an exception of class [raised]. *)
Definition catches (handler raised : error_class) : bool := issubclass raised handler.

End Exceptions.


(** * Properties *)

(** ** Strings *)

Module PyStrFacts.
Import PyStr.

Lemma lower_char_n (c : ascii) :
  lower_char c = "n"%char <-> c = "n"%char \/ c = "N"%char.
Proof.
  destruct c as [[] [] [] [] [] [] [] []]; vm_compute;
    split; intros H; try discriminate H; auto;
    destruct H as [H | H]; discriminate H.
Qed.

Lemma lower_char_o (c : ascii) :
  lower_char c = "o"%char <-> c = "o"%char \/ c = "O"%char.
Proof.
  destruct c as [[] [] [] [] [] [] [] []]; vm_compute;
    split; intros H; try discriminate H; auto;
    destruct H as [H | H]; discriminate H.
Qed.

Lemma lower_char_e (c : ascii) :
  lower_char c = "e"%char <-> c = "e"%char \/ c = "E"%char.
Proof.
  destruct c as [[] [] [] [] [] [] [] []]; vm_compute;
    split; intros H; try discriminate H; auto;
    destruct H as [H | H]; discriminate H.
Qed.

(** Folding the ASCII letters gives "none" exactly for the spellings of the
    word. *)
Lemma lower_none_iff (s : string) : ascii_lower s = "none" <-> spells_none s.
Proof.
  split.
  - intros H.
    destruct s as [|c1 [|c2 [|c3 [|c4 [|c5 s]]]]]; simpl in H; try discriminate H.
    injection H as H1 H2 H3 H4.
    exists c1, c2, c3, c4. split; [reflexivity|].
    rewrite <- lower_char_n, <- lower_char_o, <- lower_char_n, <- lower_char_e.
    auto.
  - intros (c1 & c2 & c3 & c4 & -> & H1 & H2 & H3 & H4).
    apply lower_char_n in H1, H3. apply lower_char_o in H2. apply lower_char_e in H4.
    unfold ascii_lower. simpl. rewrite H1, H2, H3, H4. reflexivity.
Qed.

Lemma lower_is_none_iff (s : string) : lower_is_none s = true <-> spells_none s.
Proof. unfold lower_is_none. rewrite String.eqb_eq. apply lower_none_iff. Qed.

Lemma truthy_true (s : string) : s <> EmptyString -> truthy s = true.
Proof. destruct s; [intros H; contradiction H; reflexivity | reflexivity]. Qed.

End PyStrFacts.

(** ** The docstring generator *)

Module DocweaverFacts.
Import PyStr PyStrFacts Docweaver DocweaverSpec.

Section Facts.

Variable unparse : expr -> option string.
Variable repr : expr -> string.
Variable unicode_capitalize : string -> string.

Local Abbreviation render := (ast_to_source unparse repr).
Local Abbreviation visit' := (visit unparse repr unicode_capitalize).
Local Abbreviation walk_file := (visit_module unparse repr unicode_capitalize).
Local Abbreviation skeleton := (generate_function_docstring unparse repr unicode_capitalize).

(** *** The walk keeps what it does not insert *)

Lemma docstring_is_none_visit (cs : list string) (body : list stmt) :
  docstring_is_none (map (visit' cs) body) = docstring_is_none body.
Proof.
  destruct body as [|s rest]; [reflexivity|].
  destruct s as [f b|f b|c bs b d|[[]| | | | | |]| | |]; reflexivity.
Qed.

Lemma nonempty_map (cs : list string) (body : list stmt) :
  nonempty (map (visit' cs) body) = nonempty body.
Proof. destruct body; reflexivity. Qed.

Lemma inject_skips (doc : string) (body visited : list stmt) :
  docstring_is_none body && nonempty body = false ->
  inject doc body visited = visited.
Proof. unfold inject. intros ->. reflexivity. Qed.

Lemma inject_inserts (doc : string) (body visited : list stmt) :
  docstring_is_none body = true -> body <> [] ->
  inject doc body visited = doc_stmt doc :: visited.
Proof.
  unfold inject. intros -> Hne. destruct body; [contradiction Hne; reflexivity|].
  reflexivity.
Qed.

(** A body that received a skeleton, or was kept, is not touched by a
    second injection. *)
Lemma inject_settled (doc doc' : string) (cs : list string) (body visited : list stmt) :
  inject doc' (inject doc body (map (visit' cs) body)) visited = visited.
Proof.
  apply inject_skips. unfold inject.
  destruct (docstring_is_none body && nonempty body) eqn:E.
  - reflexivity.
  - rewrite docstring_is_none_visit, nonempty_map. exact E.
Qed.

Lemma map_fixed {A : Type} (f : A -> A) (l : list A) :
  Forall (fun x => f x = x) l -> map f l = l.
Proof. induction 1 as [|x l Hx _ IH]; simpl; [reflexivity | rewrite Hx, IH; reflexivity]. Qed.

Lemma map_settled {A : Type} (f g : A -> A) (l : list A) :
  Forall (fun x => g (f x) = f x) l -> map g (map f l) = map f l.
Proof. induction 1 as [|x l Hx _ IH]; simpl; [reflexivity | rewrite Hx, IH; reflexivity]. Qed.

(** Visiting a visited statement changes nothing, under any class stack. *)
Lemma visit_settled (s : stmt) :
  forall cs, visit' cs (visit' cs s) = visit' cs s.
Proof.
  induction s as [f b IH|f b IH|c bs b d IH|e| |k o|k o bl IH] using stmt_nested_ind;
    intros cs; simpl; try reflexivity.
  - f_equal. rewrite inject_settled.
    unfold inject. destruct (docstring_is_none b && nonempty b); simpl.
    + f_equal. apply map_settled. eapply Forall_impl; [exact IH|]. intros x Hx. apply Hx.
    + apply map_settled. eapply Forall_impl; [exact IH|]. intros x Hx. apply Hx.
  - f_equal. rewrite inject_settled.
    unfold inject. destruct (docstring_is_none b && nonempty b); simpl.
    + f_equal. apply map_settled. eapply Forall_impl; [exact IH|]. intros x Hx. apply Hx.
    + apply map_settled. eapply Forall_impl; [exact IH|]. intros x Hx. apply Hx.
  - f_equal. rewrite inject_settled.
    unfold inject. destruct (docstring_is_none b && nonempty b); simpl.
    + f_equal. apply map_settled. eapply Forall_impl; [exact IH|]. intros x Hx. apply Hx.
    + apply map_settled. eapply Forall_impl; [exact IH|]. intros x Hx. apply Hx.
  - f_equal. apply map_settled. eapply Forall_impl; [exact IH|].
    intros l Hl. apply map_settled. eapply Forall_impl; [exact Hl|]. intros x Hx. apply Hx.
Qed.

Lemma forallb_Forall {A : Type} (p : A -> bool) (P : A -> Prop) (l : list A) :
  Forall (fun x => p x = true -> P x) l -> forallb p l = true -> Forall P l.
Proof.
  induction 1 as [|x l Hx _ IH]; simpl; intros H; [constructor|].
  apply andb_prop in H as [H1 H2]. constructor; auto.
Qed.

(** A statement all of whose definitions are documented is returned as it is. *)
Lemma visit_documented (s : stmt) :
  forall cs, all_documented s = true -> visit' cs s = s.
Proof.
  induction s as [f b IH|f b IH|c bs b d IH|e| |k o|k o bl IH] using stmt_nested_ind;
    intros cs H; simpl in *; try reflexivity.
  - apply andb_prop in H as [Hd Hb]. apply negb_true_iff in Hd.
    rewrite inject_skips by (rewrite Hd; reflexivity).
    f_equal. apply map_fixed. eapply forallb_Forall; [|exact Hb].
    eapply Forall_impl; [exact IH|]. intros x Hx Hdoc. apply Hx, Hdoc.
  - apply andb_prop in H as [Hd Hb]. apply negb_true_iff in Hd.
    rewrite inject_skips by (rewrite Hd; reflexivity).
    f_equal. apply map_fixed. eapply forallb_Forall; [|exact Hb].
    eapply Forall_impl; [exact IH|]. intros x Hx Hdoc. apply Hx, Hdoc.
  - apply andb_prop in H as [Hd Hb]. apply negb_true_iff in Hd.
    rewrite inject_skips by (rewrite Hd; reflexivity).
    f_equal. apply map_fixed. eapply forallb_Forall; [|exact Hb].
    eapply Forall_impl; [exact IH|]. intros x Hx Hdoc. apply Hx, Hdoc.
  - f_equal. apply map_fixed. eapply forallb_Forall; [|exact H].
    eapply Forall_impl; [exact IH|]. intros l Hl Hdoc.
    apply map_fixed. eapply forallb_Forall; [|exact Hdoc].
    eapply Forall_impl; [exact Hl|]. intros x Hx Hx'. apply Hx, Hx'.
Qed.

Lemma visit_keeps_docstring (cs : list string) (s : stmt) :
  documented_definition s = true ->
  List.length (body_of (visit' cs s)) = List.length (body_of s)
  /\ head (body_of (visit' cs s)) = head (body_of s).
Proof.
  destruct s as [f b|f b|c bs b d|e| |k o|k o bl]; simpl; try discriminate;
    intros H; apply negb_true_iff in H;
    (rewrite inject_skips by (rewrite H; reflexivity));
    (split; [apply List.length_map|]);
    (destruct b as [|[f' b'|f' b'|c' bs' b' d'|[[]| | | | | |]| | |] rest];
     try discriminate H; reflexivity).
Qed.


(** *** Parameters and sections of the skeleton *)


(** *** Parameters and sections of the skeleton *)

Lemma extract_parameters_declared (func : funcdef) :
  extract_parameters unparse repr func
  = map (fun p => (fst p, annotation_text unparse repr (snd p))) (declared (fargs func)).
Proof.
  unfold extract_parameters, declared.
  rewrite !map_app, !map_map.
  destruct (vararg (fargs func)), (kwarg (fargs func)); reflexivity.
Qed.

Lemma param_line_annotated (p : string * arg) :
  well_annotated unparse repr (snd p) ->
  param_line (fst p, annotation_text unparse repr (snd p)) = annotated_line unparse repr p.
Proof.
  intros (e & He & Hne). unfold param_line, annotated_line, annotation_text, annotation_of.
  rewrite He. simpl. change (ast_to_source unparse repr e) with (rendered unparse repr e).
  rewrite (truthy_true _ Hne). reflexivity.
Qed.


Lemma returns_section_some (r : string) :
  r <> EmptyString ->
  (spells_none r -> returns_section (Some r) = [])
  /\ (~ spells_none r -> returns_section (Some r) = returns_lines r).
Proof.
  intros Hne. unfold returns_section, returns_lines. rewrite (truthy_true _ Hne). simpl.
  destruct (lower_is_none r) eqn:E.
  - apply lower_is_none_iff in E. split; [reflexivity | intros H; contradiction].
  - split; [|reflexivity].
    intros H. apply lower_is_none_iff in H. congruence.
Qed.

Lemma doc_params_free (params : list (string * option string)) :
  doc_params params None = params.
Proof.
  unfold doc_params. simpl. induction params as [|p l IH]; simpl; [reflexivity|].
  rewrite IH. reflexivity.
Qed.




Lemma annotated_lines (l : list (string * arg)) :
  Forall (fun p => well_annotated unparse repr (snd p)) l ->
  map param_line (map (fun p => (fst p, annotation_text unparse repr (snd p))) l)
  = map (annotated_line unparse repr) l.
Proof.
  induction 1 as [|q l' Hq _ IH]; simpl; [reflexivity|].
  rewrite IH. f_equal. apply (param_line_annotated q Hq).
Qed.

Lemma args_section_nonempty {A : Type} (f : A -> string * option string) (l : list A) :
  l <> [] ->
  args_section (map f l) = [EmptyString; "Args:"] ++ map param_line (map f l).
Proof. destruct l; [intros H; contradiction H; reflexivity | reflexivity]. Qed.


(** C1: a module-level function with a non-empty body, no leading
    documentation statement, one or more parameters, all annotated, and a
    return annotation (annotations rendering to non-empty text, as every
    parsed expression does) receives, as its new first statement, a string
    constant whose lines are a summary, the notice, an "Args:" section with
    one line [name (annotation): TODO: describe parameter.] per parameter
    in declaration order, and a "Returns:" section that is present exactly
    when the rendered return annotation is not a spelling of the word
    "none" in upper or lower case letters. *)
Theorem C1_function_skeleton (func : funcdef) (body : list stmt) (r : expr) :
  body <> [] ->
  docstring_is_none body = true ->
  returns func = Some r ->
  rendered unparse repr r <> EmptyString ->
  declared (fargs func) <> [] ->
  Forall (fun p => well_annotated unparse repr (snd p)) (declared (fargs func)) ->
  exists summary returns_part,
    visit_module unparse repr unicode_capitalize [FunctionDef func body]
    = [FunctionDef func
         (Expr (Constant (CStr (text_of
            ([summary; EmptyString; skeleton_notice; EmptyString; "Args:"]
             ++ map (annotated_line unparse repr) (declared (fargs func))
             ++ returns_part))))
          :: visit_module unparse repr unicode_capitalize body)]
    /\ (spells_none (rendered unparse repr r) -> returns_part = [])
    /\ (~ spells_none (rendered unparse repr r) ->
        returns_part
        = [EmptyString; "Returns:";
           "    " +:+ rendered unparse repr r +:+ ": TODO: describe return value."]).
Proof.
  intros Hbody Hdoc Hret Hr Hparams Hann.
  exists (summary_line unicode_capitalize (name func) None),
         (returns_section (Some (rendered unparse repr r))).
  split.
  - unfold visit_module. simpl. rewrite (inject_inserts _ _ _ Hdoc Hbody).
    unfold doc_stmt, generate_function_docstring, docstring_lines.
    rewrite Hret, doc_params_free, extract_parameters_declared. simpl.
    rewrite (args_section_nonempty _ _ Hparams), (annotated_lines _ Hann).
    reflexivity.
  - apply returns_section_some, Hr.
Qed.

(** C2 (amended): a definition whose body holds no statement is returned
    as it is, while a body made of the placeholder [pass] alone is not
    empty: the skeleton is inserted in front of the placeholder. *)
Theorem C2_empty_body_untouched (cs : list string) (func : funcdef)
    (cname : string) (bases decos : list expr) :
  visit unparse repr unicode_capitalize cs (FunctionDef func []) = FunctionDef func []
  /\ visit unparse repr unicode_capitalize cs (AsyncFunctionDef func [])
     = AsyncFunctionDef func []
  /\ visit unparse repr unicode_capitalize cs (ClassDef cname bases [] decos)
     = ClassDef cname bases [] decos
  /\ visit unparse repr unicode_capitalize cs (FunctionDef func [Pass])
     = FunctionDef func
         [doc_stmt (generate_function_docstring unparse repr unicode_capitalize
                      func (last cs)); Pass]
  /\ visit unparse repr unicode_capitalize cs (AsyncFunctionDef func [Pass])
     = AsyncFunctionDef func
         [doc_stmt (generate_function_docstring unparse repr unicode_capitalize
                      func (last cs)); Pass]
  /\ visit unparse repr unicode_capitalize cs (ClassDef cname bases [Pass] decos)
     = ClassDef cname bases [doc_stmt (generate_class_docstring cname); Pass] decos.
Proof. repeat split. Qed.

(** C3: a definition that starts with a documentation statement gets no
    statement inserted and keeps that statement first; a file all of whose
    definitions are documented is returned unchanged; and running the
    generator on its own output changes nothing. *)
Theorem C3_documented_untouched (cs : list string) (node : stmt) (file : list stmt) :
  documented_definition node = true ->
  forallb all_documented file = true ->
  List.length (body_of (visit unparse repr unicode_capitalize cs node))
  = List.length (body_of node)
  /\ head (body_of (visit unparse repr unicode_capitalize cs node)) = head (body_of node)
  /\ (all_documented node = true -> visit unparse repr unicode_capitalize cs node = node)
  /\ visit_module unparse repr unicode_capitalize file = file
  /\ (forall any : list stmt,
         visit_module unparse repr unicode_capitalize
           (visit_module unparse repr unicode_capitalize any)
         = visit_module unparse repr unicode_capitalize any).
Proof.
  intros Hnode Hfile.
  destruct (visit_keeps_docstring cs node Hnode) as [Hlen Hhead].
  split; [exact Hlen|]. split; [exact Hhead|].
  split; [apply visit_documented|]. split.
  - unfold visit_module. apply map_fixed.
    eapply forallb_Forall; [|exact Hfile].
    apply Forall_forall. intros x _ Hx. apply visit_documented, Hx.
  - intros any. unfold visit_module. apply map_settled.
    apply Forall_forall. intros x _. apply visit_settled.
Qed.


End Facts.

(** *** The sample programs *)

Example add_docstring :
  generate_function_docstring sample_unparse sample_repr sample_capitalize add_def None
  = join nl ["Add."; EmptyString; boilerplate; EmptyString; "Args:";
             "    a (int): TODO: describe parameter.";
             "    b (int): TODO: describe parameter.";
             EmptyString; "Returns:"; "    int: TODO: describe return value."].
Proof. reflexivity. Qed.

Lemma C1_function_skeleton_witness :
  exists summary returns_part,
    visit_module sample_unparse sample_repr sample_capitalize
                 [FunctionDef add_def add_body]
    = [FunctionDef add_def
         (Expr (Constant (CStr (text_of
            ([summary; EmptyString; skeleton_notice; EmptyString; "Args:"]
             ++ ["    a (int): TODO: describe parameter.";
                 "    b (int): TODO: describe parameter."]
             ++ returns_part))))
          :: add_body)]
    /\ returns_part = [EmptyString; "Returns:"; "    int: TODO: describe return value."].
Proof.
  destruct (C1_function_skeleton sample_unparse sample_repr sample_capitalize
              add_def add_body (Name "int")) as (summary & rp & Hv & _ & Hr).
  - discriminate.
  - reflexivity.
  - reflexivity.
  - discriminate.
  - discriminate.
  - repeat constructor; exists (Name "int"); (split; [reflexivity | discriminate]).
  - exists summary, rp. split; [exact Hv|]. apply Hr.
    intros (c1 & c2 & c3 & c4 & H & _). discriminate H.
Defined.

(** C2, as stated, fails: a function whose body is the placeholder alone
    does receive a skeleton. *)
Lemma C2_placeholder_counterexample :
  visit_module sample_unparse sample_repr sample_capitalize [FunctionDef todo_def [Pass]]
  = [FunctionDef todo_def
       [doc_stmt (join nl ["Todo."; EmptyString; boilerplate]); Pass]]
  /\ visit_module sample_unparse sample_repr sample_capitalize
                  [FunctionDef todo_def [Pass]]
     <> [FunctionDef todo_def [Pass]].
Proof. split; [reflexivity | discriminate]. Qed.

Lemma C3_documented_untouched_witness :
  visit_module sample_unparse sample_repr sample_capitalize documented_file
  = documented_file.
Proof.
  apply (C3_documented_untouched sample_unparse sample_repr sample_capitalize []
           (FunctionDef add_def (Expr (Constant (CStr "Add two numbers.")) :: add_body))
           documented_file); reflexivity.
Defined.



End DocweaverFacts.
(** ** The instrumentation library *)

Module GarnishFacts.
Import PyStr Garnish GarnishSpec.

(** *** Scope resolution *)

Lemma scope_no_arguments (func : function) (n : string) :
  fn_name func = Some n ->
  _get_scope func [] = Returned (function_form func).
Proof. intros H. unfold _get_scope, function_form, name_text. rewrite H. reflexivity. Qed.

Lemma scope_same_callable (func : function) (n : string) (a0 : object)
    (rest : list object) (class_method : attr_value) :
  fn_name func = Some n ->
  cls_attrs (obj_class a0) !! n = Some class_method ->
  is_same_callable class_method func = true ->
  _get_scope func (a0 :: rest) = Returned (method_form func (obj_class a0)).
Proof.
  intros Hn H1 H2. unfold _get_scope, method_form, name_text.
  rewrite Hn, H1, H2. reflexivity.
Qed.

Lemma scope_lookup_fails (func : function) (n : string) (a0 : object)
    (rest : list object) :
  fn_name func = Some n ->
  cls_attrs (obj_class a0) !! n = None ->
  _get_scope func (a0 :: rest) = Returned (function_form func).
Proof.
  intros Hn H. unfold _get_scope, function_form, name_text. rewrite Hn, H. reflexivity.
Qed.

Lemma scope_nameless (func : function) (args : list object) :
  fn_name func = None -> _get_scope func args = Raised no_name.
Proof. intros H. unfold _get_scope. rewrite H. reflexivity. Qed.

(** When the class holds the wrapper a decorator returned, the wrapped
    function is not recognised as a method of the class. *)
Lemma scope_of_decorated_method (func : function) (n : string) (fresh_id : nat)
    (instance : object) (rest : list object) :
  fn_name func = Some n ->
  fresh_id <> fn_id func ->
  cls_attrs (obj_class instance) !! n
  = Some (AttrFunction (wrapper (decorate func fresh_id))) ->
  method_call_scope (decorate func fresh_id) n instance rest
  = Some (Returned (function_form func)).
Proof.
  intros Hn Hid Hattr. unfold method_call_scope. rewrite Hattr.
  unfold same_function. rewrite Nat.eqb_refl.
  unfold wrapper_scope, _get_scope, function_form, name_text. simpl.
  rewrite Hn, Hattr. simpl. unfold same_function. simpl.
  destruct (Nat.eqb_spec fresh_id (fn_id func)) as [E|_]; [contradiction|reflexivity].
Qed.

(** C5, at the demonstration of garnish.py: for the decorated method
    called as [obj.method(10)] the resolver returns "__main__.method", not
    "__main__.ExampleClass.method", which the resolver of _garnish.py
    returns for the same call. *)
Theorem C5_decorated_method_scope :
  method_call_scope traced_method "method" obj [ten] = Some (Returned "__main__.method")
  /\ method_form method_function ExampleClass = "__main__.ExampleClass.method"
  /\ _get_scope_v1 method_function [obj; ten] = Returned "__main__.ExampleClass.method"
  /\ _get_scope method_function [] = Returned "__main__.method".
Proof.
  split; [|split; [|split]].
  - apply (scope_of_decorated_method method_function "method" 2 obj [ten]).
    + reflexivity.
    + discriminate.
    + apply lookup_singleton_eq.
  - reflexivity.
  - reflexivity.
  - reflexivity.
Qed.

(** *** The argument-type reporter *)

Lemma append_empty_r (s : string) : s +:+ EmptyString = s.
Proof.
  induction s as [|c s IH]; [reflexivity|].
  change (String c (s +:+ EmptyString) = String c s). f_equal. exact IH.
Qed.

Lemma arg_types_lookup (names : list string) (args : list object) (i : nat) :
  arg_types names args !! i
  = match names !! i, args !! i with
    | Some n, Some a => Some (n +:+ ": " +:+ cls_name (obj_class a))
    | _, _ => None
    end.
Proof.
  unfold arg_types. rewrite list_lookup_fmap, lookup_zip_with.
  destruct (names !! i), (args !! i); reflexivity.
Qed.

(** C6 (amended): for a callable that has a name and whose parameter names
    can be inspected, the report pairs the [i]-th declared name with the
    type name of the [i]-th positional argument, for as long as both exist,
    and positional arguments beyond the declared names do not appear; the
    text that is logged and printed carries that list; the wrapper then ends
    exactly as the wrapped callable does, called once with the same
    arguments.  When the parameter names cannot be inspected, or the
    callable has no name, the wrapper raises before it logs, prints or
    calls anything. *)
Theorem C6_argtype_report (repr_str : string -> string) (func : function)
    (call : behaviour) (args : list object) (kwargs : list (string * object))
    (w : world) (names : list string) (name : string) :
  fn_argnames func = Returned names ->
  fn_name func = Some name ->
  (exists report : list string,
      List.length report = min (List.length names) (List.length args)
      /\ (forall i : nat,
             report !! i
             = match names !! i, args !! i with
               | Some n, Some a => Some (n +:+ ": " +:+ cls_name (obj_class a))
               | _, _ => None
               end)
      /\ let output :=
           ("Calling " +:+ name +:+ " with arguments:" +:+ line_break +:+ "  "
            +:+ bracketed repr_str report)
           +:+ match kwargs with
               | [] => EmptyString
               | _ :: _ =>
                   line_break +:+ "  keyword-arguments: "
                   +:+ bracketed repr_str
                         (map (fun kv => fst kv +:+ ": " +:+ cls_name (obj_class (snd kv)))
                              kwargs)
               end in
         argtype repr_str func call args kwargs w
         = call args kwargs
             (mk_world (stdout w ++ [output]) (log w ++ [("INFO", output)]) (ticks w)))
  /\ (forall f e, fn_argnames f = Raised e ->
        argtype repr_str f call args kwargs w = (w, Raised e))
  /\ (forall f ns, fn_argnames f = Returned ns -> fn_name f = None ->
        exists e, argtype repr_str f call args kwargs w = (w, Raised e)
                  /\ exc_type e = "AttributeError").
Proof.
  intros Hnames Hname. split; [|split].
  - exists (arg_types names args). split; [|split].
    + unfold arg_types. rewrite length_fmap. apply length_zip_with.
    + apply arg_types_lookup.
    + unfold argtype. rewrite Hnames, Hname. unfold argtype_output.
      destruct kwargs as [|kv rest].
      * simpl kwarg_types. cbv iota. cbv zeta.
        rewrite append_empty_r. reflexivity.
      * reflexivity.
  - intros f e Hf. unfold argtype. rewrite Hf. reflexivity.
  - intros f ns Hf Hn. exists no_name. unfold argtype. rewrite Hf, Hn. auto.
Qed.

Lemma C6_argtype_report_witness :
  argtype quote_text f_two_params echo three_args [] empty_world
  = echo three_args []
      (mk_world ["Calling f with arguments:" +:+ line_break +:+ "  ['a: int', 'b: str']"]
                [("INFO", "Calling f with arguments:" +:+ line_break
                          +:+ "  ['a: int', 'b: str']")] 0).
Proof.
  destruct (C6_argtype_report quote_text f_two_params echo three_args [] empty_world
              ["a"; "b"] "f" eq_refl eq_refl) as ((report & _ & Hr & Hrun) & _).
  assert (E : report = ["a: int"; "b: str"]).
  { apply list_eq. intros i. rewrite Hr.
    destruct i as [|[|[|i]]]; reflexivity. }
  subst report. exact Hrun.
Defined.

(** C6, as stated, fails: for the built-in [max] the parameter names cannot
    be inspected, and the wrapper raises without printing the report or
    calling [max]. *)
Lemma C6_uninspectable_counterexample :
  argtype quote_text builtin_max echo three_args [] empty_world
  = (empty_world, Raised (mk_exn "TypeError" "unsupported callable"))
  /\ snd (argtype quote_text builtin_max echo three_args [] empty_world)
     <> snd (echo three_args [] empty_world).
Proof. split; [reflexivity | discriminate]. Qed.

(** *** Timer and Profiler *)

Section ScopedFacts.

Variable time : Type.
Variable now : nat -> time.
Variable elapsed_between : time -> time -> time.
Variable fixed : time -> nat -> string.
Variable precision_limit : Z.
Variable precision_error : Z -> exn.
Variable stats_table : nat -> Z -> string.

Local Abbreviation timed :=
  (with_Timer time now elapsed_between fixed precision_limit precision_error).

Lemma format_fixed_accepts (x : time) (p : Z) :
  (0 <= p <= precision_limit)%Z ->
  format_fixed time fixed precision_limit precision_error x p
  = Returned (fixed x (Z.to_nat p)).
Proof.
  intros [H1 H2]. unfold format_fixed.
  rewrite (proj2 (Z.leb_le 0 p) H1), (proj2 (Z.leb_le p precision_limit) H2).
  reflexivity.
Qed.

Lemma format_fixed_refuses (x : time) (p : Z) :
  ~ (0 <= p <= precision_limit)%Z ->
  format_fixed time fixed precision_limit precision_error x p
  = Raised (precision_error p).
Proof.
  intros H. unfold format_fixed.
  destruct (Z.leb_spec 0 p), (Z.leb_spec p precision_limit); simpl;
    try reflexivity. contradiction H. lia.
Qed.

(** C7 (amended): for a Profiler, and for a Timer whose precision the
    number format accepts, whatever the enclosed block does the scope ends
    as the block ended (a raised exception reaches the caller unchanged),
    and what was printed is what the block left on the console followed by
    the report, once: one line for a Timer, the header and the table for a
    Profiler.  A Timer whose precision the format refuses prints no report:
    leaving the scope raises the format's error, in place of any exception
    of the block. *)
Theorem C7_scoped_report_once (t : Timer time) (p : Profiler)
    (body : world -> world * outcome unit) (w : world) :
  (0 <= precision time t <= precision_limit)%Z ->
  let entered := mk_world (stdout w) (log w) (S (ticks w)) in
  snd (timed t body w) = snd (body entered)
  /\ stdout (fst (timed t body w))
     = stdout (fst (body entered))
       ++ [description time t +:+ " took "
           +:+ fixed (elapsed_between (now (ticks (fst (body entered)))) (now (ticks w)))
                     (Z.to_nat (precision time t))
           +:+ " seconds"]
  /\ snd (with_Profiler stats_table p body w) = snd (body w)
  /\ stdout (fst (with_Profiler stats_table p body w))
     = stdout (fst (body w))
       ++ [line_break +:+ "CPU Profile for " +:+ p_description p +:+ ":";
           stats_table (ticks w) (limit p)]
  /\ (forall t' : Timer time,
         ~ (0 <= precision time t' <= precision_limit)%Z ->
         timed t' body w
         = (mk_world (stdout (fst (body entered))) (log (fst (body entered)))
                     (S (ticks (fst (body entered)))),
            Raised (precision_error (precision time t')))).
Proof.
  intros Hp entered. subst entered.
  assert (Hok : ((0 <=? precision time t) && (precision time t <=? precision_limit))%Z
                = true)
    by (apply andb_true_intro; split; apply Z.leb_le; lia).
  unfold with_Timer, with_Profiler, with_stmt. simpl.
  unfold Timer_enter, Timer_exit, Profiler_exit, perf_counter, format_fixed. simpl.
  split; [|split; [|split; [|split]]].
  - destruct (body _) as [w2 [[]|e]]; simpl; rewrite Hok; reflexivity.
  - destruct (body _) as [w2 [[]|e]]; simpl; rewrite Hok; reflexivity.
  - destruct (body w) as [w2 [[]|e]]; reflexivity.
  - destruct (body w) as [w2 [[]|e]]; simpl; rewrite <- app_assoc; reflexivity.
  - intros t' Hbad.
    assert (Hno : ((0 <=? precision time t') && (precision time t' <=? precision_limit))%Z
                  = false).
    { destruct (Z.leb_spec 0 (precision time t')),
               (Z.leb_spec (precision time t') precision_limit);
        simpl; try reflexivity. contradiction Hbad. lia. }
    destruct (body _) as [w2 [[]|e]]; simpl; rewrite Hno; reflexivity.
Qed.

End ScopedFacts.

Lemma C7_scoped_report_once_witness :
  snd (with_Timer nat sample_now sample_elapsed sample_fixed 100 sample_precision_error
                  (Timer_init nat "Sleep operation" 3) failing_block empty_world)
  = Raised (mk_exn "ValueError" "boom")
  /\ stdout (fst (with_Timer nat sample_now sample_elapsed sample_fixed 100
                             sample_precision_error
                             (Timer_init nat "Sleep operation" 3)
                             failing_block empty_world))
     = ["working"; "Sleep operation took 0.010 seconds"].
Proof.
  destruct (C7_scoped_report_once nat sample_now sample_elapsed sample_fixed 100
              sample_precision_error sample_stats
              (Timer_init nat "Sleep operation" 3)
              (Profiler_init "Sleep operation" 20) failing_block empty_world)
    as (H1 & H2 & _); [simpl; lia|].
  split; [rewrite H1 | rewrite H2]; reflexivity.
Defined.

(** C7, as stated, fails: a Timer with precision -1 prints no report, and
    the exception of the block is replaced by the error of the format. *)
Lemma C7_bad_precision_counterexample :
  with_Timer nat sample_now sample_elapsed sample_fixed 100 sample_precision_error
             (Timer_init nat "Sleep operation" (-1)) failing_block empty_world
  = (mk_world ["working"] [] 2,
     Raised (mk_exn "ValueError" "Format specifier missing precision"))
  /\ snd (with_Timer nat sample_now sample_elapsed sample_fixed 100
                     sample_precision_error
                     (Timer_init nat "Sleep operation" (-1)) failing_block empty_world)
     <> snd (failing_block (mk_world [] [] 1)).
Proof. split; [reflexivity | discriminate]. Qed.

Example argtype_extra_arguments :
  arg_types ["a"; "b"] three_args = ["a: int"; "b: str"].
Proof. reflexivity. Qed.

End GarnishFacts.

(** ** The banner printer *)

Module BannerFacts.
Import Banner BannerSpec.

Section LogoFacts.

Variable joinpath : string -> string -> string.
Variable getFonts : outcome (list string).
Variable is_file : string -> bool.
Variable installFonts : string -> outcome unit.
Variable Figlet : string -> nat -> string -> outcome unit.
Variable renderText : string -> outcome string.
Variable markup_error : string -> option exn.

Local Abbreviation run_try :=
  (try_block joinpath getFonts is_file installFonts Figlet renderText markup_error).
Local Abbreviation run_Logo dir :=
  (Logo dir joinpath getFonts is_file installFonts Figlet renderText markup_error).
Local Abbreviation steps d version author :=
  (guarded joinpath getFonts is_file installFonts Figlet renderText markup_error
           d version author).
Local Abbreviation ready d := (font_ready joinpath getFonts is_file installFonts d).

Lemma contains_In (l : list string) (x : string) : contains l x = true <-> In x l.
Proof.
  unfold contains. rewrite existsb_exists. split.
  - intros (y & Hy & E). apply String.eqb_eq in E. subst y. exact Hy.
  - intros H. exists x. split; [exact H | apply String.eqb_refl].
Qed.

Lemma contains_not_In (l : list string) (x : string) : ~ In x l -> contains l x = false.
Proof.
  intros H. destruct (contains l x) eqn:E; [|reflexivity].
  apply contains_In in E. contradiction.
Qed.

Lemma ensure_font_ready (d : string) :
  ready d -> ensure_font joinpath getFonts is_file installFonts d = Returned tt.
Proof.
  intros (fonts & Hf & H). unfold ensure_font. rewrite Hf.
  destruct (contains fonts font_name) eqn:E; [reflexivity|].
  destruct H as [Hin | [Hfile Hinst]].
  - apply contains_In in Hin. unfold font_name in E. congruence.
  - unfold font_file in *. change (font_name +:+ ".flf") with "3d.flf".
    rewrite Hfile. exact Hinst.
Qed.

(** The guarded block does what the steps say. *)
Lemma try_block_steps (d version author : string) (printed : list string)
    (failure : option exn) :
  steps d version author printed failure ->
  run_try d version author
  = (printed, match failure with Some e => Raised e | None => Returned tt end).
Proof.
  intros H. unfold try_block.
  destruct H as [e Hf|fonts Hf Hn Hfile|fonts e Hf Hn Hfile Hi|e Hr Hg|e Hr Hg Ht
                 |art e Hr Hg Ht H1|art e Hr Hg Ht H1 H2|art e Hr Hg Ht H1 H2 H3
                 |art Hr Hg Ht H1 H2 H3];
    try (rewrite (ensure_font_ready d Hr));
    try (change (Figlet font_name 120 "left") with (Figlet "3d" 120 "left"); rewrite Hg);
    try rewrite Ht.
  - unfold ensure_font. rewrite Hf. reflexivity.
  - unfold ensure_font. change font_name with "3d".
    rewrite Hf, (contains_not_In _ _ Hn).
    change ("3d" +:+ ".flf") with "3d.flf". unfold font_file in Hfile.
    rewrite Hfile. reflexivity.
  - unfold ensure_font. change font_name with "3d".
    rewrite Hf, (contains_not_In _ _ Hn).
    change ("3d" +:+ ".flf") with "3d.flf". unfold font_file in Hfile, Hi.
    rewrite Hfile, Hi. reflexivity.
  - reflexivity.
  - reflexivity.
  - unfold console_print. change (bold_blue art) with (blue art). rewrite H1. reflexivity.
  - unfold console_print. change (bold_blue art) with (blue art). rewrite H1.
    change (bold_blue ("AUTHOR: " +:+ author)) with (author_line author).
    rewrite H2. reflexivity.
  - unfold console_print. change (bold_blue art) with (blue art). rewrite H1.
    change (bold_blue ("AUTHOR: " +:+ author)) with (author_line author). rewrite H2.
    change (bold_blue ("VERSION: " +:+ version) +:+ PyStr.nl) with (version_line version).
    rewrite H3. reflexivity.
  - unfold console_print. change (bold_blue art) with (blue art). rewrite H1.
    change (bold_blue ("AUTHOR: " +:+ author)) with (author_line author). rewrite H2.
    change (bold_blue ("VERSION: " +:+ version) +:+ PyStr.nl) with (version_line version).
    rewrite H3. reflexivity.
Qed.

(** The steps cover every behaviour of the services. *)
Lemma steps_total (d version author : string) :
  exists printed failure, steps d version author printed failure.
Proof.
  assert (Hcase : (exists fonts, getFonts = Returned fonts)
                  \/ (exists e, getFonts = Raised e))
    by (destruct getFonts; eauto).
  destruct Hcase as [[fonts Hf] | [e Hf]];
    [|exists [], (Some e); apply fonts_unknown; exact Hf].
  assert (Hready_or :
            ready d
            \/ exists e, steps d version author [] (Some e)).
  { destruct (contains fonts "3d") eqn:Ec.
    - left. exists fonts. split; [exact Hf|]. left. apply contains_In, Ec.
    - assert (Hn : ~ In "3d" fonts) by (intros H; apply contains_In in H; congruence).
      destruct (is_file (font_file joinpath d)) eqn:Efile.
      + destruct (installFonts (font_file joinpath d)) as [[]|e] eqn:Ei.
        * left. exists fonts. split; [exact Hf|]. right. split; assumption.
        * right. eexists. eapply install_failed; eassumption.
      + right. eexists. eapply font_file_missing; eassumption. }
  destruct Hready_or as [Hr | [e He]]; [|exists [], (Some e); exact He].
  destruct (Figlet "3d" 120 "left") as [[]|e] eqn:Hg;
    [|exists [], (Some e); apply figlet_failed; assumption].
  destruct (renderText "TickerTricker") as [art|e] eqn:Ht;
    [|exists [], (Some e); apply render_failed; assumption].
  destruct (markup_error (blue art)) as [e|] eqn:H1;
    [exists [], (Some e); eapply art_refused; eassumption|].
  destruct (markup_error (author_line author)) as [e|] eqn:H2;
    [exists [blue art], (Some e); eapply author_refused; eassumption|].
  destruct (markup_error (version_line version)) as [e|] eqn:H3;
    [exists [blue art; author_line author], (Some e); eapply version_refused; eassumption|].
  exists [blue art; author_line author; version_line version], None.
  apply completed; assumption.
Qed.

(** C8 (amended): once the font directory is resolved from the
    configuration, the guarded sequence either runs to its end, and the
    renderer returns with the three blue lines printed, or fails at one of
    its steps; that failure is caught and reported as one bold-red line
    carrying its text, after the lines already printed, and the renderer
    returns normally, provided the console accepts the error line.  A
    failure of resolving the directory, which happens before the guarded
    sequence, and a failure of printing the error line, which happens in the
    handler, reach the caller. *)
Theorem C8_banner_contains_failures (d version author : string) :
  (exists printed failure, steps d version author printed failure)
  /\ (forall printed,
         steps d version author printed None ->
         run_Logo (Returned d) version author = (printed, Returned tt))
  /\ (forall printed e,
         steps d version author printed (Some e) ->
         markup_error (red_line e) = None ->
         run_Logo (Returned d) version author = (printed ++ [red_line e], Returned tt))
  /\ (forall printed e e',
         steps d version author printed (Some e) ->
         markup_error (red_line e) = Some e' ->
         run_Logo (Returned d) version author = (printed, Raised e'))
  /\ (forall e, run_Logo (Raised e) version author = ([], Raised e)).
Proof.
  split; [apply steps_total|]. unfold Logo. split; [|split; [|split]].
  - intros printed H. rewrite (try_block_steps _ _ _ _ _ H). reflexivity.
  - intros printed e H Hm. rewrite (try_block_steps _ _ _ _ _ H).
    unfold console_print. change (bold_red ("Error loading font: " +:+ exc_text e))
      with (red_line e). rewrite Hm. reflexivity.
  - intros printed e e' H Hm. rewrite (try_block_steps _ _ _ _ _ H).
    unfold console_print. change (bold_red ("Error loading font: " +:+ exc_text e))
      with (red_line e). rewrite Hm. reflexivity.
  - reflexivity.
Qed.

End LogoFacts.

(** C8, as stated, fails: with the configuration missing, the failure
    reaches the caller. *)
Lemma C8_missing_config_counterexample :
  Logo missing_config plain_join no_fonts no_file install_ok figlet_ok render_ok markup_ok
       "1.0" "someone"
  = ([], Raised (mk_exn "AttributeError"
                        "type object 'Config' has no attribute 'FONT_DIR'"))
  /\ snd (Logo missing_config plain_join no_fonts no_file install_ok figlet_ok render_ok
               markup_ok "1.0" "someone")
     <> Returned tt.
Proof. split; [reflexivity | discriminate]. Qed.

(** A font directory that does not exist: one error line, normal return. *)
Lemma C8_banner_contains_failures_witness :
  Logo (Returned "/nowhere") plain_join no_fonts no_file install_ok figlet_ok render_ok
       markup_ok "1.0" "someone"
  = (["[bold red]Error loading font: Font file '/nowhere/3d.flf' not found.[/bold red]"],
     Returned tt).
Proof.
  destruct (C8_banner_contains_failures plain_join no_fonts no_file install_ok
              figlet_ok render_ok markup_ok "/nowhere" "1.0" "someone")
    as (_ & _ & H & _).
  apply (H [] (mk_exn "FileNotFoundError" "Font file '/nowhere/3d.flf' not found."));
    [|reflexivity].
  apply (font_file_missing plain_join no_fonts no_file install_ok figlet_ok render_ok
           markup_ok "/nowhere" "1.0" "someone" ["standard"]).
  - reflexivity.
  - intros [H1|[]]. discriminate H1.
  - reflexivity.
Defined.

End BannerFacts.

(** ** Loggers and run metadata *)

Module LogmanFacts.
Import Logman LogmanSpec.

Section LoggerFacts.

Variable LOG_LEVEL : string.
Variable getcwd : string.
Variable path_join : string -> string -> string.
Variable makedirs : string -> option exn.
Variable open_file : string -> option exn.
Variable timestamp : nat -> string.

Local Abbreviation get :=
  (get_logger LOG_LEVEL getcwd path_join makedirs open_file timestamp).

(** A logger that has sinks is returned as it is. *)
Lemma get_logger_configured (name : string) (w : world) :
  sinks name w <> [] -> get name w = (w, Returned (logger_key name)).
Proof.
  unfold sinks, get_logger, getLogger. intros H.
  destruct (loggers w !! logger_key name) as [l|]; [|contradiction H; reflexivity].
  destruct (handlers l); [contradiction H; reflexivity | reflexivity].
Qed.

Lemma sinks_update (name : string) (l : logger) (w : world) :
  sinks name (update_logger name l w) = handlers l.
Proof. unfold sinks, update_logger. simpl. rewrite lookup_insert_eq. reflexivity. Qed.

(** A first call that returns leaves exactly one sink, a rotating file. *)
Lemma get_logger_first (name : string) (w w1 : world) (h : string) :
  sinks name w = [] ->
  get name w = (w1, Returned h) ->
  h = logger_key name
  /\ exists filename,
       sinks name w1
       = [RotatingFileHandler filename (5 * 1024 * 1024) 5 LOG_LEVEL
                              file_format "%Y-%m-%d %H:%M:%S"].
Proof.
  unfold get_logger. intros Hs.
  destruct (getLogger name w) as [lg w0] eqn:Eg.
  assert (Hlg : handlers lg = []).
  { unfold getLogger, sinks in *. destruct (loggers w !! logger_key name) as [l|].
    - injection Eg as <- <-. exact Hs.
    - injection Eg as <- <-. reflexivity. }
  rewrite Hlg.
  destruct (makedirs (path_join getcwd "logs")); [discriminate|].
  match goal with |- context [open_file ?f] => destruct (open_file f) eqn:Eo end;
    [discriminate|].
  intros H. injection H as <- <-. split; [reflexivity|].
  eexists. unfold sinks, update_logger. simpl. rewrite lookup_insert_eq. simpl.
  reflexivity.
Qed.

(** C9: when a logger without sinks is requested and the request returns,
    the logger has exactly one file sink; requesting it again under the
    same name returns the same handle and leaves the process, and so the
    one sink, unchanged.  In general a logger that already has sinks is
    returned with nothing changed. *)
Theorem C9_get_logger_idempotent (name : string) (w w1 : world) (h : string) :
  sinks name w = [] ->
  get name w = (w1, Returned h) ->
  (exists filename,
      sinks name w1
      = [RotatingFileHandler filename (5 * 1024 * 1024) 5 LOG_LEVEL
                             file_format "%Y-%m-%d %H:%M:%S"])
  /\ get name w1 = (w1, Returned h)
  /\ List.length (sinks name (fst (get name w1))) = 1
  /\ (forall w' : world,
        sinks name w' <> [] -> get name w' = (w', Returned (logger_key name))).
Proof.
  intros Hs Hg. destruct (get_logger_first name w w1 h Hs Hg) as [-> [filename Hf]].
  assert (Hne : sinks name w1 <> []) by (rewrite Hf; discriminate).
  split; [exists filename; exact Hf|].
  split; [apply get_logger_configured, Hne|].
  split; [rewrite (get_logger_configured name w1 Hne); simpl; rewrite Hf; reflexivity|].
  intros w' H. apply get_logger_configured, H.
Qed.

End LoggerFacts.

Lemma C9_get_logger_idempotent_witness :
  exists w1,
    get_logger "INFO" "/srv" posix_join always_ok always_ok fixed_stamp "app" fresh_process
    = (w1, Returned "app")
    /\ get_logger "INFO" "/srv" posix_join always_ok always_ok fixed_stamp "app" w1
       = (w1, Returned "app")
    /\ List.length (sinks "app" w1) = 1.
Proof.
  eexists. split; [reflexivity|].
  destruct (C9_get_logger_idempotent "INFO" "/srv" posix_join always_ok always_ok
              fixed_stamp "app" fresh_process _ "app" eq_refl eq_refl)
    as ([filename Hf] & Hagain & _ & _).
  split; [exact Hagain | rewrite Hf; reflexivity].
Defined.

Section MetadataFacts.

Variable gethostname : string.
Variable python_version : string.
Variable utc_now_iso : string.
Variable strip : string -> string.

Local Abbreviation collect git tf np :=
  (collect_run_metadata git tf np gethostname python_version utc_now_iso strip).

Lemma metadata_returned (git tf : outcome string) (np : string) (seed : Z) :
  exists m, collect git tf (Returned np) seed = Returned m
    /\ m !! "seed" = Some (VInt seed)
    /\ m !! "git_sha"
       = Some (VStr match git with Returned out => strip out | Raised _ => "unknown" end)
    /\ m !! "tensorflow"
       = Some (VStr match tf with Returned v => v | Raised _ => "not-imported" end)
    /\ Forall (fun k => is_Some (m !! k)) metadata_keys.
Proof.
  eexists. split; [reflexivity|].
  split; [apply lookup_insert_eq|].
  split; [rewrite lookup_insert_ne by discriminate; apply lookup_insert_eq|].
  split; [do 4 (rewrite lookup_insert_ne by discriminate); apply lookup_insert_eq|].
  unfold metadata_keys.
  repeat (apply Forall_cons; split;
          [repeat (rewrite lookup_insert_ne by discriminate);
           rewrite lookup_insert_eq; eexists; reflexivity|]).
  apply Forall_nil. exact I.
Qed.

(** C10: with the numeric-array library importable, the collector returns
    a mapping for every seed and every behaviour of the two guarded
    lookups; it holds the seed and all seven keys; a failed revision lookup
    gives "unknown" and a failed framework import gives "not-imported". *)
Theorem C10_metadata_fallbacks (git tf : outcome string) (np : string) (seed : Z)
    (e : exn) :
  (exists m, collect git tf (Returned np) seed = Returned m
     /\ m !! "seed" = Some (VInt seed)
     /\ Forall (fun k => is_Some (m !! k)) metadata_keys)
  /\ (exists m, collect (Raised e) tf (Returned np) seed = Returned m
        /\ m !! "git_sha" = Some (VStr "unknown")
        /\ m !! "seed" = Some (VInt seed)
        /\ Forall (fun k => is_Some (m !! k)) metadata_keys)
  /\ (exists m, collect git (Raised e) (Returned np) seed = Returned m
        /\ m !! "tensorflow" = Some (VStr "not-imported")
        /\ m !! "seed" = Some (VInt seed)
        /\ Forall (fun k => is_Some (m !! k)) metadata_keys).
Proof.
  split; [|split].
  - destruct (metadata_returned git tf np seed) as (m & Hm & Hs & _ & _ & Hk).
    exists m. auto.
  - destruct (metadata_returned (Raised e) tf np seed) as (m & Hm & Hs & Hg & _ & Hk).
    exists m. auto.
  - destruct (metadata_returned git (Raised e) np seed) as (m & Hm & Hs & _ & Ht & Hk).
    exists m. auto.
Qed.

End MetadataFacts.

(** The revision-control tool and the framework both missing, seed 7. *)
Example metadata_without_git :
  exists m,
    collect_run_metadata git_missing tf_missing (Returned "1.26.0")
                         "host" "3.11.4" "2024-01-01T00:00:00+00:00" id 7
    = Returned m
    /\ m !! "git_sha" = Some (VStr "unknown")
    /\ m !! "seed" = Some (VInt 7)
    /\ m !! "tensorflow" = Some (VStr "not-imported").
Proof.
  destruct (metadata_returned "host" "3.11.4" "2024-01-01T00:00:00+00:00" id
              git_missing tf_missing "1.26.0" 7) as (m & Hm & Hs & Hg & Ht & _).
  exists m. auto.
Qed.

End LogmanFacts.

(** ** The walk as a whole, and [process_file] *)

Module DocweaverFileFacts.
Import PyStr PyStrFacts Docweaver DocweaverSpec DocweaverFacts DocweaverFile.

Section WalkFacts.

Variable unparse : expr -> option string.
Variable repr : expr -> string.
Variable unicode_capitalize : string -> string.

Local Abbreviation walk := (visit unparse repr unicode_capitalize).

Lemma forallb_map_true {A B : Type} (p : B -> bool) (f : A -> B) (l : list A) :
  Forall (fun x => p (f x) = true) l -> forallb p (map f l) = true.
Proof. induction 1 as [|x l Hx _ IH]; simpl; [reflexivity | rewrite Hx, IH; reflexivity]. Qed.

Lemma inject_settles (doc : string) (cs : list string) (body : list stmt) :
  let body' := inject doc body (map (walk cs) body) in
  docstring_is_none body' && nonempty body' = false.
Proof.
  unfold inject. destruct (docstring_is_none body && nonempty body) eqn:E.
  - reflexivity.
  - rewrite docstring_is_none_visit, nonempty_map. exact E.
Qed.

Lemma forallb_inject (doc : string) (body visited : list stmt) :
  forallb settled visited = true -> forallb settled (inject doc body visited) = true.
Proof. unfold inject. intros H. destruct (_ && _); simpl; exact H. Qed.

Lemma visit_settles (s : stmt) : forall cs, settled (walk cs s) = true.
Proof.
  induction s as [f b IH|f b IH|c bs b d IH|e| |k o|k o bl IH] using stmt_nested_ind;
    intros cs; simpl; try reflexivity.
  - rewrite inject_settles. simpl. apply forallb_inject, forallb_map_true.
    eapply Forall_impl; [exact IH|]. intros x Hx. apply Hx.
  - rewrite inject_settles. simpl. apply forallb_inject, forallb_map_true.
    eapply Forall_impl; [exact IH|]. intros x Hx. apply Hx.
  - rewrite inject_settles. simpl. apply forallb_inject, forallb_map_true.
    eapply Forall_impl; [exact IH|]. intros x Hx. apply Hx.
  - apply forallb_map_true. eapply Forall_impl; [exact IH|].
    intros l Hl. apply forallb_map_true. eapply Forall_impl; [exact Hl|].
    intros x Hx. apply Hx.
Qed.

(** X1: after the walk every class and function definition of the file, at
    every depth, has an empty body or starts with a documentation
    statement. *)
Theorem walk_documents_everything (file : list stmt) :
  forallb settled (visit_module unparse repr unicode_capitalize file) = true.
Proof.
  unfold visit_module. apply forallb_map_true.
  apply Forall_forall. intros x _. apply visit_settles.
Qed.

Lemma list_sum_map_add {A : Type} (f g h : A -> nat) (l : list A) :
  Forall (fun x => f x = g x + h x) l ->
  list_sum (map f l) = list_sum (map g l) + list_sum (map h l).
Proof. induction 1 as [|x l Hx _ IH]; simpl; [reflexivity | rewrite Hx, IH; lia]. Qed.

Lemma list_sum_inject (doc : string) (body visited : list stmt) :
  list_sum (map count_stmts (inject doc body visited))
  = lacks_doc body + list_sum (map count_stmts visited).
Proof. unfold inject, lacks_doc. destruct (_ && _); reflexivity. Qed.

Lemma visit_count (s : stmt) :
  forall cs, count_stmts (walk cs s) = count_stmts s + count_missing s.
Proof.
  induction s as [f b IH|f b IH|c bs b d IH|e| |k o|k o bl IH] using stmt_nested_ind;
    intros cs; simpl; try reflexivity.
  - rewrite list_sum_inject, map_map.
    rewrite (list_sum_map_add _ count_stmts count_missing); [lia|].
    eapply Forall_impl; [exact IH|]. intros x Hx. apply Hx.
  - rewrite list_sum_inject, map_map.
    rewrite (list_sum_map_add _ count_stmts count_missing); [lia|].
    eapply Forall_impl; [exact IH|]. intros x Hx. apply Hx.
  - rewrite list_sum_inject, map_map.
    rewrite (list_sum_map_add _ count_stmts count_missing); [lia|].
    eapply Forall_impl; [exact IH|]. intros x Hx. apply Hx.
  - rewrite map_map.
    rewrite (list_sum_map_add _ (fun b => list_sum (map count_stmts b))
                                (fun b => list_sum (map count_missing b))); [lia|].
    eapply Forall_impl; [exact IH|]. intros l Hl. simpl. rewrite map_map.
    apply list_sum_map_add. eapply Forall_impl; [exact Hl|]. intros x Hx. apply Hx.
Qed.

(** X2: the walk adds exactly one statement for each definition that has a
    non-empty body and no leading documentation statement, and removes
    none: the number of statements grows by the number of such
    definitions. *)
Theorem walk_adds_one_per_definition (file : list stmt) :
  list_sum (map count_stmts (visit_module unparse repr unicode_capitalize file))
  = list_sum (map count_stmts file) + list_sum (map count_missing file).
Proof.
  unfold visit_module. rewrite map_map. apply list_sum_map_add.
  apply Forall_forall. intros x _. apply visit_count.
Qed.

Lemma concat_map_same {A B : Type} (f g : A -> list B) (l : list A) :
  Forall (fun x => f x = g x) l -> List.concat (map f l) = List.concat (map g l).
Proof. induction 1 as [|x l Hx _ IH]; simpl; [reflexivity | rewrite Hx, IH; reflexivity]. Qed.

Lemma headers_inject (doc : string) (body visited : list stmt) :
  List.concat (map headers (inject doc body visited)) = List.concat (map headers visited).
Proof. unfold inject. destruct (_ && _); reflexivity. Qed.

Lemma visit_headers (s : stmt) : forall cs, headers (walk cs s) = headers s.
Proof.
  induction s as [f b IH|f b IH|c bs b d IH|e| |k o|k o bl IH] using stmt_nested_ind;
    intros cs; simpl; try reflexivity.
  - f_equal. rewrite headers_inject, map_map. apply concat_map_same.
    eapply Forall_impl; [exact IH|]. intros x Hx. apply Hx.
  - f_equal. rewrite headers_inject, map_map. apply concat_map_same.
    eapply Forall_impl; [exact IH|]. intros x Hx. apply Hx.
  - f_equal. rewrite headers_inject, map_map. apply concat_map_same.
    eapply Forall_impl; [exact IH|]. intros x Hx. apply Hx.
  - rewrite map_map. apply concat_map_same.
    eapply Forall_impl; [exact IH|]. intros l Hl. simpl. rewrite map_map.
    apply concat_map_same. eapply Forall_impl; [exact Hl|]. intros x Hx. apply Hx.
Qed.

(** X3: the walk keeps the definitions of the file as they are: the same
    classes, functions and asynchronous functions, in the same order, each
    with its name, parameters, decorators, bases and return annotation. *)
Theorem walk_keeps_definitions (file : list stmt) :
  List.concat (map headers (visit_module unparse repr unicode_capitalize file))
  = List.concat (map headers file).
Proof.
  unfold visit_module. rewrite map_map. apply concat_map_same.
  apply Forall_forall. intros x _. apply visit_headers.
Qed.

(** X4: a function defined inside a method is documented as a method of
    the enclosing class: function definitions do not change the class
    stack. *)
Theorem nested_function_is_method (cs : list string) (c : string)
    (bases decos : list expr) (m h : funcdef) (hbody : list stmt) :
  docstring_is_none hbody = true ->
  hbody <> [] ->
  name h <> "__init__" ->
  visit unparse repr unicode_capitalize cs (ClassDef c bases [FunctionDef m [FunctionDef h hbody]] decos)
  = ClassDef c bases
      [doc_stmt (generate_class_docstring c);
       FunctionDef m
         [doc_stmt (generate_function_docstring unparse repr unicode_capitalize m (Some c));
          FunctionDef h
            (doc_stmt (generate_function_docstring unparse repr unicode_capitalize h (Some c))
             :: map (visit unparse repr unicode_capitalize (cs ++ [c])) hbody)]]
      decos
  /\ summary_line unicode_capitalize (name h) (Some c)
     = "Method `" +:+ name h +:+ "` of `" +:+ c +:+ "`.".
Proof.
  intros Hdoc Hne Hname. split.
  - simpl. rewrite last_snoc. unfold inject at 1 2. simpl.
    rewrite (inject_inserts _ _ _ Hdoc Hne). reflexivity.
  - unfold summary_line. apply String.eqb_neq in Hname. rewrite Hname. reflexivity.
Qed.

End WalkFacts.

Lemma nested_function_is_method_witness :
  summary_line sample_capitalize (name add_def) (Some "Widget")
  = "Method `add` of `Widget`.".
Proof.
  apply (nested_function_is_method sample_unparse sample_repr sample_capitalize
           [] "Widget" [] []
           init_def add_def add_body); [reflexivity | discriminate | discriminate].
Defined.

(** *** The summary of a free function *)

Lemma upper_char_keeps_no_underscore (c : ascii) :
  Ascii.eqb c "_" = false -> Ascii.eqb (upper_char c) "_" = false.
Proof. destruct c as [[] [] [] [] [] [] [] []]; vm_compute; intros H; congruence. Qed.

Lemma lower_char_keeps_no_underscore (c : ascii) :
  Ascii.eqb c "_" = false -> Ascii.eqb (lower_char c) "_" = false.
Proof. destruct c as [[] [] [] [] [] [] [] []]; vm_compute; intros H; congruence. Qed.

Lemma lower_char_not_upper (c : ascii) : is_upper (lower_char c) = false.
Proof. destruct c as [[] [] [] [] [] [] [] []]; vm_compute; reflexivity. Qed.

Lemma spaced_char_no_underscore (c : ascii) :
  Ascii.eqb (if Ascii.eqb c "_" then " "%char else c) "_" = false.
Proof. destruct (Ascii.eqb c "_") eqn:E; [reflexivity | exact E]. Qed.

Lemma spaced_char_ascii (c : ascii) :
  (nat_of_ascii c <? 128)%nat = true ->
  (nat_of_ascii (if Ascii.eqb c "_" then " "%char else c) <? 128)%nat = true.
Proof. destruct (Ascii.eqb c "_"); [reflexivity | tauto]. Qed.

Lemma all_ascii_replace (s : string) :
  all_ascii s = true -> all_ascii (replace_char "_" " " s) = true.
Proof.
  induction s as [|c s IH]; simpl; [reflexivity|].
  intros H. apply andb_prop in H as [H1 H2].
  unfold replace_char in *. rewrite (spaced_char_ascii c H1). simpl. apply IH, H2.
Qed.

Lemma lacks_char_lower (s : string) :
  lacks_char "_" s = true -> lacks_char "_" (ascii_lower s) = true.
Proof.
  induction s as [|c s IH]; simpl; [reflexivity|].
  intros H. apply andb_prop in H as [H1 H2]. apply negb_true_iff in H1.
  unfold ascii_lower in *. rewrite (lower_char_keeps_no_underscore c H1). simpl.
  apply IH, H2.
Qed.

Lemma lacks_char_replace (s : string) :
  lacks_char "_" (replace_char "_" " " s) = true.
Proof.
  induction s as [|c s IH]; simpl; [reflexivity|].
  unfold replace_char in *. rewrite spaced_char_no_underscore. simpl. exact IH.
Qed.

Lemma no_capitals_lower (s : string) : no_capitals (ascii_lower s) = true.
Proof.
  induction s as [|c s IH]; simpl; [reflexivity|].
  rewrite lower_char_not_upper. simpl. exact IH.
Qed.

Lemma lacks_char_append (x : ascii) (a b : string) :
  lacks_char x (a +:+ b) = lacks_char x a && lacks_char x b.
Proof.
  induction a as [|c a IH]; [reflexivity|].
  change (lacks_char x (String c (a +:+ b))
          = lacks_char x (String c a) && lacks_char x b).
  simpl. rewrite IH, andb_assoc. reflexivity.
Qed.

Lemma length_map_chars (f : ascii -> ascii) (s : string) :
  String.length (map_chars f s) = String.length s.
Proof. induction s as [|c s IH]; simpl; [reflexivity | rewrite IH; reflexivity]. Qed.

Lemma length_append (a b : string) :
  String.length (a +:+ b) = String.length a + String.length b.
Proof.
  induction a as [|c a IH]; [reflexivity|].
  change (String.length (String c (a +:+ b)) = S (String.length a) + String.length b).
  simpl. rewrite IH. reflexivity.
Qed.

Lemma summary_of_ascii_name (caps : string -> string) (fname : string) :
  all_ascii fname = true ->
  summary_line caps fname None = ascii_capitalize (replace_char "_" " " fname) +:+ ".".
Proof.
  intros H. unfold summary_line, capitalize. rewrite (all_ascii_replace fname H).
  reflexivity.
Qed.

(** X5: for a function name of ASCII characters, the summary line of a
    free function contains no underscore, has one character more than the
    name (the final period), and after its first character holds no
    capital letter: the letters of the name that follow the first are
    lower-cased. *)
Theorem free_function_summary (caps : string -> string) (fname : string) :
  all_ascii fname = true ->
  lacks_char "_" (summary_line caps fname None) = true
  /\ String.length (summary_line caps fname None) = S (String.length fname)
  /\ match summary_line caps fname None with
     | EmptyString => False
     | String _ rest => no_capitals rest = true
     end.
Proof.
  intros Hascii. rewrite (summary_of_ascii_name caps fname Hascii).
  split; [|split].
  - rewrite lacks_char_append. apply andb_true_intro. split; [|reflexivity].
    pose proof (lacks_char_replace fname) as H.
    destruct (replace_char "_" " " fname) as [|c s]; [reflexivity|].
    simpl in H. apply andb_prop in H as [H1 H2]. apply negb_true_iff in H1.
    simpl. rewrite (upper_char_keeps_no_underscore c H1). simpl.
    apply lacks_char_lower, H2.
  - rewrite length_append. simpl.
    assert (H : String.length (ascii_capitalize (replace_char "_" " " fname))
                = String.length fname).
    { unfold replace_char. rewrite <- (length_map_chars
        (fun c => if Ascii.eqb c "_" then " "%char else c) fname).
      destruct (map_chars _ fname) as [|c s]; [reflexivity|].
      simpl. unfold ascii_lower. rewrite length_map_chars. reflexivity. }
    rewrite H. lia.
  - destruct (replace_char "_" " " fname) as [|c s].
    + reflexivity.
    + change (no_capitals (ascii_lower s +:+ ".") = true).
      pose proof (no_capitals_lower s) as H.
      induction (ascii_lower s) as [|x r IH]; [reflexivity|].
      change (no_capitals (String x (r +:+ ".")) = true).
      simpl in *. apply andb_prop in H as [H1 H2]. rewrite H1. simpl. apply IH, H2.
Qed.

Lemma free_function_summary_witness :
  lacks_char "_" (summary_line sample_capitalize "parse_JSON_file" None) = true
  /\ String.length (summary_line sample_capitalize "parse_JSON_file" None) = 16
  /\ summary_line sample_capitalize "parse_JSON_file" None = "Parse json file.".
Proof.
  destruct (free_function_summary sample_capitalize "parse_JSON_file" eq_refl)
    as (H1 & H2 & _).
  split; [exact H1|]. split; [exact H2 | reflexivity].
Defined.

(** *** [process_file] *)

Section ProcessFileFacts.

Variable unparse : expr -> option string.
Variable repr : expr -> string.
Variable unicode_capitalize : string -> string.
Variable parse : string -> outcome (list stmt).
Variable unparse_module : list stmt -> option string.
Variable open_for_writing : string -> option exn.

Local Abbreviation run :=
  (process_file unparse repr unicode_capitalize parse unparse_module open_for_writing).

(** X6: whatever happens, [process_file] touches no file other than the
    output path; when it fails (input missing, syntax error, no renderer,
    output not writable) no file changes at all; when it returns, the output
    file holds the rendering of the walked tree of the input. *)
Theorem process_file_effect (input_path output_path : string)
    (files : gmap string string) :
  (forall path, path <> output_path ->
      fst (run input_path output_path files) !! path = files !! path)
  /\ (forall e, snd (run input_path output_path files) = Raised e ->
      fst (run input_path output_path files) = files)
  /\ (snd (run input_path output_path files) = Returned tt ->
      exists source tree text,
        files !! input_path = Some source
        /\ parse source = Returned tree
        /\ unparse_module (visit_module unparse repr unicode_capitalize tree) = Some text
        /\ fst (run input_path output_path files) = <[output_path := text]> files).
Proof.
  unfold process_file.
  destruct (files !! input_path) as [source|] eqn:Ein;
    [|split; [reflexivity | split; [reflexivity | discriminate]]].
  destruct (parse source) as [tree|e0] eqn:Ep;
    [|split; [reflexivity | split; [reflexivity | discriminate]]].
  destruct (unparse_module (visit_module unparse repr unicode_capitalize tree)) as [text|] eqn:Eu;
    [|split; [reflexivity | split; [reflexivity | discriminate]]].
  destruct (open_for_writing output_path) as [e1|] eqn:Ew;
    [split; [reflexivity | split; [reflexivity | discriminate]]|].
  simpl. split; [|split].
  - intros path Hne. apply lookup_insert_ne. congruence.
  - discriminate.
  - intros _. exists source, tree, text. auto.
Qed.

(** X7: running [process_file] on its own output writes the same text
    again, provided the text the renderer printed parses back to the tree
    it was printed from. *)
Theorem process_file_twice (input_path output_path again : string)
    (files : gmap string string) (source text : string) (tree : list stmt) :
  files !! input_path = Some source ->
  parse source = Returned tree ->
  unparse_module (visit_module unparse repr unicode_capitalize tree) = Some text ->
  parse text = Returned (visit_module unparse repr unicode_capitalize tree) ->
  open_for_writing output_path = None ->
  open_for_writing again = None ->
  exists files1 files2,
    run input_path output_path files = (files1, Returned tt)
    /\ run output_path again files1 = (files2, Returned tt)
    /\ files1 !! output_path = Some text
    /\ files2 !! again = Some text.
Proof.
  intros Hin Hp Hu Hback Hw1 Hw2.
  exists (<[output_path := text]> files),
         (<[again := text]> (<[output_path := text]> files)).
  split; [|split; [|split]].
  - unfold process_file. rewrite Hin, Hp, Hu, Hw1. reflexivity.
  - unfold process_file. rewrite lookup_insert_eq, Hback.
    assert (Hsame : visit_module unparse repr unicode_capitalize (visit_module unparse repr unicode_capitalize tree)
                    = visit_module unparse repr unicode_capitalize tree).
    { unfold visit_module. apply map_settled.
      apply Forall_forall. intros x _. apply visit_settled. }
    rewrite Hsame, Hu, Hw2. reflexivity.
  - apply lookup_insert_eq.
  - apply lookup_insert_eq.
Qed.

End ProcessFileFacts.

Lemma process_file_twice_witness :
  exists files1 files2,
    process_file sample_name_unparse sample_node_repr sample_caps sample_parse sample_print writable
                 "in.py" "out.py" sample_files = (files1, Returned tt)
    /\ process_file sample_name_unparse sample_node_repr sample_caps sample_parse sample_print writable
                    "out.py" "again.py" files1 = (files2, Returned tt)
    /\ files1 !! "out.py" = Some sample_output
    /\ files2 !! "again.py" = Some sample_output.
Proof.
  apply (process_file_twice sample_name_unparse sample_node_repr sample_caps sample_parse sample_print
           writable "in.py" "out.py" "again.py" sample_files sample_source sample_output
           sample_tree); reflexivity.
Defined.

End DocweaverFileFacts.

(** ** The remaining decorators *)

Module GarnishWrappersFacts.
Import PyStr Garnish GarnishSpec GarnishWrappers.

Lemma string_length_append (a b : string) :
  String.length (a +:+ b) = String.length a + String.length b.
Proof.
  induction a as [|c a IH]; [reflexivity|].
  change (String.length (String c (a +:+ b)) = S (String.length a) + String.length b).
  simpl. rewrite IH. reflexivity.
Qed.

Lemma forms_differ (m c n : string) :
  m +:+ "." +:+ c +:+ "." +:+ n <> m +:+ "." +:+ n.
Proof.
  intros H. apply (f_equal String.length) in H.
  rewrite !string_length_append in H. simpl in H. lia.
Qed.

Lemma holds_same_callable (c : class_obj) (n : string) (func : function) :
  holds_callable c n func
  <-> exists class_method,
        cls_attrs c !! n = Some class_method
        /\ is_same_callable class_method func = true.
Proof.
  split.
  - intros (g & [H|H] & Hid).
    + exists (AttrFunction g). split; [exact H|].
      simpl. unfold same_function. rewrite Hid. apply Nat.eqb_refl.
    + exists (AttrBound g). split; [exact H|].
      simpl. unfold same_function. rewrite Hid. apply Nat.eqb_refl.
  - intros (cm & Hl & Hs). destruct cm as [g|g|tag]; simpl in Hs; try discriminate Hs;
      unfold same_function in Hs; apply Nat.eqb_eq in Hs; exists g; auto.
Qed.

(** X8: for a callable with a name, the resolver returns
    "module.Class.name" when there is a first argument whose class holds,
    under that name, the callable itself or a bound method of it, and
    "module.name" in every other case; the two texts are never equal.  For
    a callable without a name it raises [AttributeError], whatever the
    arguments. *)
Theorem scope_class_form_iff (func : function) (n : string) (args : list object) :
  fn_name func = Some n ->
  (forall a0 rest,
      args = a0 :: rest ->
      holds_callable (obj_class a0) n func ->
      _get_scope func args
      = Returned (module_text func +:+ "." +:+ cls_name (obj_class a0) +:+ "." +:+ n))
  /\ ((forall a0 rest, args = a0 :: rest -> ~ holds_callable (obj_class a0) n func) ->
      _get_scope func args = Returned (module_text func +:+ "." +:+ n))
  /\ (forall c : class_obj,
         module_text func +:+ "." +:+ cls_name c +:+ "." +:+ n
         <> module_text func +:+ "." +:+ n)
  /\ (forall nameless,
         fn_name nameless = None ->
         exists e, _get_scope nameless args = Raised e
                   /\ exc_type e = "AttributeError").
Proof.
  intros Hn. split; [|split; [|split]].
  - intros a0 rest -> H. apply holds_same_callable in H as (cm & Hl & Hs).
    unfold _get_scope, module_text. rewrite Hn, Hl, Hs. reflexivity.
  - intros H. unfold _get_scope, module_text. rewrite Hn.
    destruct args as [|a0 rest]; [reflexivity|].
    destruct (cls_attrs (obj_class a0) !! n) as [cm|] eqn:El; [|reflexivity].
    destruct (is_same_callable cm func) eqn:Es; [|reflexivity].
    exfalso. apply (H a0 rest eq_refl). apply holds_same_callable. eauto.
  - intros c. apply forms_differ.
  - intros nameless H. exists no_name. unfold _get_scope. rewrite H. auto.
Qed.

Lemma scope_class_form_iff_witness :
  _get_scope method_function [plain_obj; ten] = Returned "__main__.PlainClass.method".
Proof.
  destruct (scope_class_form_iff method_function "method" [plain_obj; ten] eq_refl)
    as (H & _).
  apply (H plain_obj [ten] eq_refl). exists method_function.
  split; [left; apply lookup_singleton_eq | reflexivity].
Defined.

Lemma listed_In (l : list string) (x : string) : listed l x = true <-> In x l.
Proof.
  unfold listed. rewrite existsb_exists. split.
  - intros (y & Hy & E). apply String.eqb_eq in E. subst y. exact Hy.
  - intros H. exists x. split; [exact H | apply String.eqb_refl].
Qed.

(** X9: for a callable whose module and name are known, the earlier
    resolver of _garnish.py returns the class form exactly when [dir] of
    the class of the first argument lists the name, whatever the attribute
    is; when that class moreover holds the callable itself, the two
    resolvers return the same text; and with no argument both return the
    plain form. *)
Theorem resolvers_compared (func : function) (n m : string) (args : list object) :
  fn_name func = Some n ->
  fn_module func = Some m ->
  (forall a0 rest,
      args = a0 :: rest ->
      In n (cls_dir (obj_class a0)) ->
      _get_scope_v1 func args
      = Returned (m +:+ "." +:+ cls_name (obj_class a0) +:+ "." +:+ n))
  /\ (forall a0 rest,
         args = a0 :: rest ->
         ~ In n (cls_dir (obj_class a0)) ->
         _get_scope_v1 func args = Returned (m +:+ "." +:+ n))
  /\ (forall a0 rest,
         args = a0 :: rest ->
         In n (cls_dir (obj_class a0)) ->
         holds_callable (obj_class a0) n func ->
         _get_scope_v1 func args = _get_scope func args)
  /\ (args = [] ->
      _get_scope_v1 func args = Returned (m +:+ "." +:+ n)
      /\ _get_scope func args = Returned (m +:+ "." +:+ n)).
Proof.
  intros Hn Hm. split; [|split; [|split]].
  - intros a0 rest -> Hin. unfold _get_scope_v1. rewrite Hm, Hn.
    rewrite (proj2 (listed_In _ _) Hin). reflexivity.
  - intros a0 rest -> Hin. unfold _get_scope_v1. rewrite Hm, Hn.
    destruct (listed (cls_dir (obj_class a0)) n) eqn:E; [|reflexivity].
    apply listed_In in E. contradiction.
  - intros a0 rest -> Hin H. apply holds_same_callable in H as (cm & Hl & Hs).
    unfold _get_scope_v1, _get_scope. rewrite Hm, Hn, Hl, Hs.
    rewrite (proj2 (listed_In _ _) Hin). reflexivity.
  - intros ->. unfold _get_scope_v1, _get_scope. rewrite Hm, Hn. auto.
Qed.

Lemma resolvers_compared_witness :
  _get_scope_v1 method_function [obj; ten] = Returned "__main__.ExampleClass.method"
  /\ _get_scope_v1 method_function [plain_obj; ten]
     = _get_scope method_function [plain_obj; ten].
Proof.
  split.
  - destruct (resolvers_compared method_function "method" "__main__" [obj; ten]
                eq_refl eq_refl) as (H & _).
    apply (H obj [ten] eq_refl). simpl. tauto.
  - destruct (resolvers_compared method_function "method" "__main__" [plain_obj; ten]
                eq_refl eq_refl) as (_ & _ & H & _).
    apply (H plain_obj [ten] eq_refl); [simpl; tauto|].
    exists method_function. split; [left; apply lookup_singleton_eq | reflexivity].
Defined.

Section DecoratorFacts.

Variable time : Type.
Variable now : nat -> time.
Variable elapsed_between : time -> time -> time.
Variable fixed : time -> nat -> string.
Variable precision_limit : Z.
Variable precision_error : Z -> exn.
Variable repr_str : string -> string.
Variable str_nat : nat -> string.
Variable getdoc : function -> option string.
Variable stats_sorted : string -> Z -> nat -> outcome string.

Local Abbreviation timing :=
  (timeit time now elapsed_between fixed precision_limit precision_error).
Local Abbreviation profiling :=
  (profile_all time now elapsed_between fixed repr_str stats_sorted).
Local Abbreviation accepted p := (0 <= p <= precision_limit)%Z.

Lemma accepted_true (p : Z) :
  accepted p -> ((0 <=? p) && (p <=? precision_limit))%Z = true.
Proof. intros [H1 H2]. apply andb_true_intro. split; apply Z.leb_le; assumption. Qed.

Lemma accepted_false (p : Z) :
  ~ accepted p -> ((0 <=? p) && (p <=? precision_limit))%Z = false.
Proof.
  intros H. destruct (Z.leb_spec 0 p), (Z.leb_spec p precision_limit); simpl;
    try reflexivity. contradiction H. lia.
Qed.

(** X10: once the scope is resolved, [timeit] prints its header, reads the
    clock and calls the callable once.  When the callable raises, that is
    the end.  When it returns and the precision is one the number format
    accepts, the line with the elapsed time follows its output, one INFO
    record is logged and its result is returned; for any other precision
    the format's error is raised instead, with nothing printed or logged
    after the callable.  When the scope cannot be resolved, [timeit] raises
    before printing or calling anything. *)
Theorem timeit_report (precision : Z) (func : function) (call : behaviour)
    (args : list object) (kwargs : list (string * object)) (w : world)
    (scope : string) :
  _get_scope func args = Returned scope ->
  let entered :=
    mk_world (stdout w ++ ["Execution speed of " +:+ scope +:+ ":"]) (log w)
             (S (ticks w)) in
  let inner := call args kwargs entered in
  let took :=
    fixed (elapsed_between (now (ticks (fst inner))) (now (ticks w)))
          (Z.to_nat precision) in
  (forall e, snd inner = Raised e ->
     timing precision func call args kwargs w = inner)
  /\ (forall v, snd inner = Returned v -> accepted precision ->
        timing precision func call args kwargs w
        = (mk_world (stdout (fst inner) ++ ["took " +:+ took +:+ " seconds."])
                    (log (fst inner)
                     ++ [("INFO", scope +:+ " took " +:+ took +:+ " seconds")])
                    (S (ticks (fst inner))),
           Returned v))
  /\ (forall v, snd inner = Returned v -> ~ accepted precision ->
        timing precision func call args kwargs w
        = (mk_world (stdout (fst inner)) (log (fst inner)) (S (ticks (fst inner))),
           Raised (precision_error precision)))
  /\ (forall f e, _get_scope f args = Raised e ->
        timing precision f call args kwargs w = (w, Raised e)).
Proof.
  intros Hs entered inner took. subst took inner entered.
  unfold timeit. rewrite Hs. unfold perf_counter, format_fixed, print, logger_info. simpl.
  split; [|split; [|split]].
  - intros e. destruct (call args kwargs _) as [w3 [v|e']]; simpl;
      [discriminate | reflexivity].
  - intros v. destruct (call args kwargs _) as [w3 [v'|e']]; simpl; [|discriminate].
    intros H Hp. injection H as <-. rewrite (accepted_true _ Hp). reflexivity.
  - intros v. destruct (call args kwargs _) as [w3 [v'|e']]; simpl; [|discriminate].
    intros H Hp. rewrite (accepted_false _ Hp). reflexivity.
  - intros f e Hf. rewrite Hf. reflexivity.
Qed.


(** X12: once the scope is resolved, [docs] prints the header and then the
    documentation text of the callable, or the fixed placeholder both when
    there is no documentation and when it is the empty text, and calls the
    callable once.  When the scope cannot be resolved, it raises before
    printing or calling anything. *)
Theorem docs_placeholder (func : function) (call : behaviour)
    (args : list object) (kwargs : list (string * object)) (w : world)
    (scope : string) :
  _get_scope func args = Returned scope ->
  (exists line,
      docs getdoc func call args kwargs w
      = call args kwargs
          (mk_world (stdout w ++ ["Documentation for " +:+ scope +:+ ":"; line])
                    (log w) (ticks w))
      /\ (getdoc func = None \/ getdoc func = Some EmptyString ->
          line = "No documentation available.")
      /\ (forall doc, getdoc func = Some doc -> doc <> EmptyString -> line = doc))
  /\ (forall f e, _get_scope f args = Raised e ->
        docs getdoc f call args kwargs w = (w, Raised e)).
Proof.
  intros Hs. split.
  - unfold docs. rewrite Hs. unfold print.
    destruct (getdoc func) as [[|c d]|] eqn:E; simpl; rewrite <- app_assoc.
    + exists "No documentation available.". split; [reflexivity|].
      split; [reflexivity|]. intros doc H Hne. injection H as <-.
      contradiction Hne; reflexivity.
    + exists (String c d). split; [reflexivity|].
      split; [intros [H|H]; discriminate H|]. intros doc H _. injection H as <-.
      reflexivity.
    + exists "No documentation available.". split; [reflexivity|].
      split; [reflexivity|]. intros doc H. discriminate H.
  - intros f e Hf. unfold docs. rewrite Hf. reflexivity.
Qed.

(** X13: once the scope is resolved, [cputime] prints its header and calls
    the callable once; when it returns, the statistics table is printed
    after its output and its result returned; when the callable raises, or
    the statistics cannot be sorted by the given key, nothing more is
    printed and that failure reaches the caller.  When the scope cannot be
    resolved, it raises before printing or calling anything. *)
Theorem cputime_report (sort_by : string) (limit : Z) (func : function)
    (call : behaviour) (args : list object) (kwargs : list (string * object))
    (w : world) (scope : string) :
  _get_scope func args = Returned scope ->
  let entered :=
    mk_world (stdout w ++ ["CPU runtime for " +:+ scope +:+ ":"]) (log w) (ticks w) in
  let inner := call args kwargs entered in
  let outer := cputime stats_sorted sort_by limit func call args kwargs w in
  (forall e, snd inner = Raised e -> outer = inner)
  /\ (forall v e, snd inner = Returned v ->
        stats_sorted sort_by limit (ticks w) = Raised e ->
        outer = (fst inner, Raised e))
  /\ (forall v table, snd inner = Returned v ->
        stats_sorted sort_by limit (ticks w) = Returned table ->
        outer = (mk_world (stdout (fst inner) ++ [table]) (log (fst inner))
                          (ticks (fst inner)),
                 Returned v))
  /\ (forall f e, _get_scope f args = Raised e ->
        cputime stats_sorted sort_by limit f call args kwargs w = (w, Raised e)).
Proof.
  intros Hs entered inner outer. subst outer inner entered.
  unfold cputime. rewrite Hs. unfold print. simpl.
  split; [|split; [|split]].
  - intros e. destruct (call args kwargs _) as [w2 [v|e']]; simpl;
      [discriminate | reflexivity].
  - intros v e. destruct (call args kwargs _) as [w2 [v'|e']]; simpl; [|discriminate].
    intros _ He. rewrite He. reflexivity.
  - intros v table. destruct (call args kwargs _) as [w2 [v'|e']]; simpl; [|discriminate].
    intros H Ht. rewrite Ht. injection H as <-. reflexivity.
  - intros f e Hf. rewrite Hf. reflexivity.
Qed.

(** X14: with its three displays switched off, [profile_all] behaves as the
    wrapped callable, provided the scope can be resolved: nothing is
    printed, logged or measured.  The scope is resolved all the same: for a
    callable without a name the call raises and the callable is not
    run. *)
Theorem profile_all_switched_off (func : function) (call : behaviour)
    (args : list object) (kwargs : list (string * object)) (w : world)
    (scope : string) :
  _get_scope func args = Returned scope ->
  profiling false false false func call args kwargs w = call args kwargs w
  /\ (forall f, fn_name f = None ->
        exists e, profiling false false false f call args kwargs w = (w, Raised e)
                  /\ exc_type e = "AttributeError").
Proof.
  intros Hs. split.
  - unfold profile_all, profile_rest. rewrite Hs. simpl.
    destruct (call args kwargs w) as [w3 [v|e]]; reflexivity.
  - intros f Hf. exists no_name. unfold profile_all, _get_scope. rewrite Hf. auto.
Qed.

(** X15: in [profile_all], once the scope is resolved, the closing line
    does not depend on the opening banner: with only the timing display on,
    the callable starts with the console as it was and, when it returns,
    the timing line and the closing line follow its output.  Without the
    argument display, whatever the other two, nothing is printed after a
    callable that raises.  With the argument display, parameter names that
    cannot be inspected make the call raise before anything is printed or
    run. *)
Theorem profile_all_banners (show_time show_cpu : bool) (func : function)
    (call : behaviour) (args : list object) (kwargs : list (string * object))
    (w : world) (scope : string) :
  _get_scope func args = Returned scope ->
  let ticked := mk_world (stdout w) (log w) (S (ticks w)) in
  (forall v, snd (call args kwargs ticked) = Returned v ->
     profiling false true false func call args kwargs w
     = (mk_world
          (stdout (fst (call args kwargs ticked))
           ++ ["Execution time: "
               +:+ fixed (elapsed_between (now (ticks (fst (call args kwargs ticked))))
                                          (now (ticks w))) 3
               +:+ " seconds";
               sixty_equals +:+ line_break])
          (log (fst (call args kwargs ticked)))
          (S (ticks (fst (call args kwargs ticked)))),
        Returned v))
  /\ (forall e,
         snd (call args kwargs (if show_time then ticked else w)) = Raised e ->
         profiling false show_time show_cpu func call args kwargs w
         = call args kwargs (if show_time then ticked else w))
  /\ (forall e,
         fn_argnames func = Raised e ->
         profiling true show_time show_cpu func call args kwargs w = (w, Raised e)).
Proof.
  intros Hs ticked. subst ticked. unfold profile_all. rewrite Hs.
  split; [|split].
  - unfold profile_rest, perf_counter, print. simpl.
    destruct (call args kwargs _) as [w3 [v|e]]; simpl; [|discriminate].
    intros v' H. injection H as <-. rewrite <- app_assoc. reflexivity.
  - intros e. unfold profile_rest, perf_counter.
    destruct show_time; simpl;
      destruct (call args kwargs _) as [w3 [v|e']]; simpl;
      intros H; [discriminate H | reflexivity | discriminate H | reflexivity].
  - intros e He. rewrite He. reflexivity.
Qed.

(** X16: Timer scopes nest, for precisions the number format accepts: the
    inner report is printed first, then the outer one, after everything the
    block printed, and the block's outcome passes through both. *)
Theorem nested_timers (outer_t inner_t : Timer time)
    (body : world -> world * outcome unit) (w : world) :
  accepted (precision time outer_t) ->
  accepted (precision time inner_t) ->
  let nested :=
    with_Timer time now elapsed_between fixed precision_limit precision_error outer_t
      (with_Timer time now elapsed_between fixed precision_limit precision_error
                  inner_t body) w in
  let block := body (mk_world (stdout w) (log w) (S (S (ticks w)))) in
  snd nested = snd block
  /\ stdout (fst nested)
     = stdout (fst block)
       ++ [description time inner_t +:+ " took "
           +:+ fixed (elapsed_between (now (ticks (fst block))) (now (S (ticks w))))
                     (Z.to_nat (precision time inner_t))
           +:+ " seconds";
           description time outer_t +:+ " took "
           +:+ fixed (elapsed_between (now (S (ticks (fst block)))) (now (ticks w)))
                     (Z.to_nat (precision time outer_t))
           +:+ " seconds"].
Proof.
  intros Ho Hi nested block. subst nested block.
  pose proof (accepted_true _ Ho) as Eo. pose proof (accepted_true _ Hi) as Ei.
  unfold with_Timer, with_stmt. simpl.
  unfold Timer_enter, Timer_exit, perf_counter, format_fixed. simpl.
  destruct (body _) as [w2 [[]|e]]; simpl; rewrite Ei; simpl; rewrite Eo; simpl;
    (split; [reflexivity|]); rewrite <- app_assoc; reflexivity.
Qed.

End DecoratorFacts.

Lemma timeit_report_witness :
  timeit nat sample_now sample_elapsed sample_fixed 100 sample_precision_error
         3 f_two_params echo three_args [] empty_world
  = (mk_world ["Execution speed of __main__.f:"; "called"; "took 0.010 seconds."]
              [("INFO", "__main__.f took 0.010 seconds")] 2,
     Returned (mk_object "1" int_class)).
Proof.
  destruct (timeit_report nat sample_now sample_elapsed sample_fixed 100
              sample_precision_error 3 f_two_params echo three_args [] empty_world
              "__main__.f" eq_refl) as (_ & H & _).
  apply (H (mk_object "1" int_class) eq_refl). lia.
Defined.


Lemma docs_placeholder_witness :
  docs sample_getdoc f_two_params echo three_args [] empty_world
  = (mk_world ["Documentation for __main__.f:"; "No documentation available."; "called"]
              [] 0,
     Returned (mk_object "1" int_class)).
Proof.
  destruct (docs_placeholder sample_getdoc f_two_params echo three_args [] empty_world
              "__main__.f" eq_refl) as ((line & Hrun & Hnone & _) & _).
  rewrite Hrun, (Hnone (or_introl eq_refl)). reflexivity.
Defined.

Lemma cputime_report_witness :
  cputime sample_sorted "cumulative" 20 f_two_params echo three_args [] empty_world
  = (mk_world ["CPU runtime for __main__.f:"; "called"; "<profile>"] [] 0,
     Returned (mk_object "1" int_class)).
Proof.
  destruct (cputime_report sample_sorted "cumulative" 20 f_two_params echo three_args []
              empty_world "__main__.f" eq_refl) as (_ & _ & H & _).
  apply (H (mk_object "1" int_class) "<profile>"); reflexivity.
Defined.

Lemma profile_all_switched_off_witness :
  profile_all nat sample_now sample_elapsed sample_fixed quote_text sample_sorted
              false false false f_two_params echo three_args [] empty_world
  = echo three_args [] empty_world.
Proof.
  apply (profile_all_switched_off nat sample_now sample_elapsed sample_fixed quote_text
           sample_sorted f_two_params echo three_args [] empty_world "__main__.f" eq_refl).
Defined.

Lemma profile_all_banners_witness :
  profile_all nat sample_now sample_elapsed sample_fixed quote_text sample_sorted
              true false false builtin_max echo three_args [] empty_world
  = (empty_world, Raised (mk_exn "TypeError" "unsupported callable")).
Proof.
  destruct (profile_all_banners nat sample_now sample_elapsed sample_fixed quote_text
              sample_sorted false false builtin_max echo three_args [] empty_world
              "builtins.max" eq_refl) as (_ & _ & H).
  apply H. reflexivity.
Defined.

Lemma nested_timers_witness :
  stdout (fst (with_Timer nat sample_now sample_elapsed sample_fixed 100
                 sample_precision_error (Timer_init nat "outer" 3)
                 (with_Timer nat sample_now sample_elapsed sample_fixed 100
                    sample_precision_error (Timer_init nat "inner" 2) failing_block)
                 empty_world))
  = ["working"; "inner took 0.010 seconds"; "outer took 0.010 seconds"].
Proof.
  destruct (nested_timers nat sample_now sample_elapsed sample_fixed 100
              sample_precision_error (Timer_init nat "outer" 3)
              (Timer_init nat "inner" 2) failing_block empty_world)
    as (_ & H); [simpl; lia | simpl; lia|].
  rewrite H. reflexivity.
Defined.

End GarnishWrappersFacts.

(** ** More on the banner, the loggers and the run metadata *)

Module BannerMoreFacts.
Import Banner BannerSpec.

(** X17: when the font "3d" is already registered, the font directory is
    never looked into: the banner is the same whatever the directory
    holds and whatever installing a font would do. *)
Theorem registered_font_skips_directory
    (joinpath joinpath' : string -> string -> string)
    (getFonts : outcome (list string)) (is_file is_file' : string -> bool)
    (installFonts installFonts' : string -> outcome unit)
    (Figlet : string -> nat -> string -> outcome unit)
    (renderText : string -> outcome string)
    (markup_error : string -> option exn)
    (fonts : list string) (d d' version author : string) :
  getFonts = Returned fonts ->
  contains fonts font_name = true ->
  Logo (Returned d) joinpath getFonts is_file installFonts Figlet renderText
       markup_error version author
  = Logo (Returned d') joinpath' getFonts is_file' installFonts' Figlet renderText
         markup_error version author.
Proof.
  intros Hf Hc. unfold Logo, try_block, ensure_font. rewrite Hf, Hc. reflexivity.
Qed.

Lemma registered_font_skips_directory_witness :
  Logo (Returned "/fonts") plain_join (Returned ["standard"; "3d"]) no_file install_ok
       figlet_ok render_ok markup_ok "1.0" "someone"
  = Logo (Returned "/elsewhere") plain_join (Returned ["standard"; "3d"])
         (fun _ => true) (fun _ => Raised (mk_exn "OSError" "read-only"))
         figlet_ok render_ok markup_ok "1.0" "someone".
Proof.
  apply (registered_font_skips_directory plain_join plain_join
           (Returned ["standard"; "3d"]) no_file (fun _ => true) install_ok
           (fun _ => Raised (mk_exn "OSError" "read-only")) figlet_ok render_ok
           markup_ok ["standard"; "3d"]); reflexivity.
Defined.

End BannerMoreFacts.

Module LogmanMoreFacts.
Import Logman LogmanSpec.

Section LoggerMoreFacts.

Variable LOG_LEVEL : string.
Variable getcwd : string.
Variable path_join : string -> string -> string.
Variable makedirs : string -> option exn.
Variable open_file : string -> option exn.
Variable timestamp : nat -> string.

Local Abbreviation get :=
  (get_logger LOG_LEVEL getcwd path_join makedirs open_file timestamp).

Lemma logger_key_same (a b : string) :
  logger_key a = logger_key b <-> same_logger a b.
Proof.
  unfold logger_key, same_logger, is_root_name.
  destruct (String.eqb_spec a EmptyString) as [Ha1|Ha1],
           (String.eqb_spec a "root") as [Ha2|Ha2],
           (String.eqb_spec b EmptyString) as [Hb1|Hb1],
           (String.eqb_spec b "root") as [Hb2|Hb2];
    simpl; (split; [intros H | intros [H | [[H|H] [H'|H']]]]);
    subst; try congruence; try reflexivity; try tauto;
    try (right; split; [left|left]; reflexivity);
    try (right; split; [left|right]; reflexivity);
    try (right; split; [right|left]; reflexivity);
    try (right; split; [right|right]; reflexivity).
Qed.

Lemma sinks_other (name other : string) (l : logger) (w : world) :
  logger_key other <> logger_key name ->
  sinks other (update_logger name l w) = sinks other w.
Proof.
  intros H. unfold sinks, update_logger. simpl.
  rewrite lookup_insert_ne by congruence. reflexivity.
Qed.

(** X18: a request for a logger never touches the sinks of a different
    logger, where the empty name and the name "root" denote the same one;
    and it never removes or replaces a sink of the logger requested: the
    sinks it had stay in front, followed by at most one new one, and by
    none when the request fails. *)
Theorem get_logger_keeps_sinks (name : string) (w : world) :
  (forall other, ~ same_logger other name ->
     sinks other (fst (get name w)) = sinks other w)
  /\ (forall other (w' : world), same_logger other name -> sinks other w' = sinks name w')
  /\ exists added,
       sinks name (fst (get name w)) = sinks name w ++ added
       /\ List.length added <= 1
       /\ (forall e, snd (get name w) = Raised e -> added = []).
Proof.
  split; [|split].
  - intros other Hne.
    assert (Hk : logger_key other <> logger_key name)
      by (intros E; apply Hne, logger_key_same, E).
    unfold get_logger, getLogger.
    destruct (loggers w !! logger_key name) as [l|] eqn:El;
      [destruct (handlers l) as [|h hs] eqn:Eh|];
      try (destruct (makedirs (path_join getcwd "logs")) as [e|];
           [|match goal with |- context [open_file ?f] => destruct (open_file f) as [e|] end]);
      unfold sinks, update_logger; simpl;
      rewrite ?lookup_insert_ne by congruence; reflexivity.
  - intros other w' H. apply logger_key_same in H. unfold sinks. rewrite H. reflexivity.
  - unfold get_logger, getLogger.
    destruct (loggers w !! logger_key name) as [l|] eqn:El;
      [destruct (handlers l) as [|h hs] eqn:Eh|];
      try (destruct (makedirs (path_join getcwd "logs")) as [e|];
           [|match goal with |- context [open_file ?f] => destruct (open_file f) as [e|] end]);
      unfold sinks, update_logger; simpl;
      rewrite ?lookup_insert_eq, ?El, ?Eh; simpl.
    all: try (exists []; rewrite ?app_nil_r;
              split; [reflexivity|]; split; [simpl; lia | reflexivity]).
    all: eexists [_]; split; [reflexivity|]; split; [simpl; lia | discriminate].
Qed.

(** X19: when creating the log directory fails for a logger without sinks,
    the failure reaches the caller after the level was set: the logger is
    left registered with the configured level and still without a sink, no
    directory is recorded and the clock is not read, so a later request
    starts the initialisation again. *)
Theorem get_logger_failed_directory (name : string) (w : world) (e : exn) :
  sinks name w = [] ->
  makedirs (path_join getcwd "logs") = Some e ->
  snd (get name w) = Raised e
  /\ loggers (fst (get name w)) !! logger_key name = Some (mk_logger (Some LOG_LEVEL) [])
  /\ sinks name (fst (get name w)) = []
  /\ made_dirs (fst (get name w)) = made_dirs w
  /\ clock_reads (fst (get name w)) = clock_reads w.
Proof.
  intros Hs Hm. unfold get_logger, getLogger, sinks in *.
  destruct (loggers w !! logger_key name) as [l|] eqn:El; simpl.
  - rewrite Hs, Hm. simpl. rewrite lookup_insert_eq. auto.
  - rewrite Hm. simpl. rewrite lookup_insert_eq. auto.
Qed.

End LoggerMoreFacts.

Lemma get_logger_failed_directory_witness :
  snd (get_logger "INFO" "/srv" posix_join
         (fun _ => Some (mk_exn "PermissionError" "denied")) always_ok fixed_stamp
         "app" fresh_process)
  = Raised (mk_exn "PermissionError" "denied").
Proof.
  apply (get_logger_failed_directory "INFO" "/srv" posix_join
           (fun _ => Some (mk_exn "PermissionError" "denied")) always_ok fixed_stamp
           "app" fresh_process (mk_exn "PermissionError" "denied")); reflexivity.
Defined.

Section MetadataMoreFacts.

Variable git_rev_parse : outcome string.
Variable tensorflow_version : outcome string.
Variable gethostname : string.
Variable python_version : string.
Variable utc_now_iso : string.
Variable strip : string -> string.

Local Abbreviation collect np :=
  (collect_run_metadata git_rev_parse tensorflow_version np gethostname python_version
                        utc_now_iso strip).

(** X20: a failure to import the numeric-array library is the one failure
    [collect_run_metadata] lets through, whatever the two guarded lookups
    did; otherwise the record has exactly the seven keys, the revision is
    the stripped output of the tool when it ran, and host, interpreter,
    library version and start time are the values the services gave. *)
Theorem metadata_record_shape (seed : Z) (np : string) (e : exn) :
  collect (Raised e) seed = Raised e
  /\ exists m,
       collect (Returned np) seed = Returned m
       /\ dom m = list_to_set metadata_keys
       /\ (forall out, git_rev_parse = Returned out ->
             m !! "git_sha" = Some (VStr (strip out)))
       /\ (forall v, tensorflow_version = Returned v ->
             m !! "tensorflow" = Some (VStr v))
       /\ m !! "host" = Some (VStr gethostname)
       /\ m !! "python" = Some (VStr python_version)
       /\ m !! "numpy" = Some (VStr np)
       /\ m !! "started_at" = Some (VStr utc_now_iso).
Proof.
  split; [reflexivity|]. eexists. split; [reflexivity|].
  split; [unfold metadata_keys; rewrite !dom_insert_L, dom_empty_L; set_solver|].
  split; [intros out ->; rewrite lookup_insert_ne by discriminate;
          apply lookup_insert_eq|].
  split; [intros v ->; do 4 (rewrite lookup_insert_ne by discriminate);
          apply lookup_insert_eq|].
  split; [do 2 (rewrite lookup_insert_ne by discriminate); apply lookup_insert_eq|].
  split; [do 3 (rewrite lookup_insert_ne by discriminate); apply lookup_insert_eq|].
  split; [do 5 (rewrite lookup_insert_ne by discriminate); apply lookup_insert_eq|].
  do 6 (rewrite lookup_insert_ne by discriminate). apply lookup_insert_eq.
Qed.

End MetadataMoreFacts.

End LogmanMoreFacts.

(** ** The error classes *)

Module ExceptionsFacts.
Import Exceptions.

Lemma every_class_listed (k : error_class) : k ∈ all_classes.
Proof. destruct k; unfold all_classes; set_solver. Qed.

(** X21: every error class of the module derives from [StockSignalError],
    so a handler for it catches them all, while it is caught only by a
    handler for itself. *)
Theorem root_catches_all (k : error_class) :
  catches StockSignalError k = true
  /\ (catches k StockSignalError = true -> k = StockSignalError).
Proof. destruct k; split; try reflexivity; vm_compute; discriminate. Qed.

(** X22: the hierarchy has two levels below the root: a handler catches a
    class exactly when it names that class, its direct base, or the
    root. *)
Theorem catches_iff (handler raised : error_class) :
  catches handler raised = true
  <-> raised = handler \/ base raised = Some handler \/ handler = StockSignalError.
Proof.
  split.
  - destruct handler, raised; vm_compute; intros H; try discriminate H; auto.
  - intros [-> | [H | ->]].
    + destruct handler; reflexivity.
    + destruct raised; simpl in H; try discriminate H; injection H as <-; reflexivity.
    + destruct raised; reflexivity.
Qed.

(** X23: two different classes with the same direct base never catch each
    other; in particular [DatabaseConnectionError] and
    [DatabaseQueryError] are related only through [DatabaseError]. *)
Theorem siblings_unrelated (a b : error_class) :
  a <> b -> base a = base b -> catches a b = false /\ catches b a = false.
Proof.
  intros Hne Hb.
  destruct a, b; try (contradiction Hne; reflexivity); try discriminate Hb;
    split; reflexivity.
Qed.

Lemma siblings_unrelated_witness :
  catches DatabaseConnectionError DatabaseQueryError = false
  /\ catches DatabaseQueryError DatabaseConnectionError = false.
Proof.
  apply (siblings_unrelated DatabaseConnectionError DatabaseQueryError);
    [discriminate | reflexivity].
Defined.

End ExceptionsFacts.

